(** * VirtualList: the bounded page window, the pagination protocol and the
      scroll compensation of the two variants of the component.

    The main variant is [src/VirtualList.tsx] (module [Main]); the legacy
    variant is the second source file (module [Legacy]).  Both share the
    window update performed by [addPage] once the host promise has settled.
    [Main] runs the animation-frame callback of an update right after the
    update; [MainFrames] keeps the callbacks queued until a frame event.
    [SettingsObject] has the settings as the objects the constructors spread;
    [Main] and [Legacy] hold them as typed records.

    Numbers: pixel quantities and [maxPageBuffer] are JavaScript numbers in
    the source; they are integers here ([Z]).  Intersection ratios are
    rationals ([Q]).  Asynchrony: a call of [addPage] runs up to its [await]
    (issuing the host call), and its continuation runs when that promise
    settles; the event loop is a step function over explicit events. *)

From Stdlib Require Import ZArith QArith String Ascii Lia.
From stdpp Require Import base list strings gmap.

Local Open Scope Z_scope.

(** ** Pages *)

(** Modelled from the spec: [IPageProps] is declared in [./components], which
    is not part of the sources at hand.  The legacy variant reads [page.id]
    (the reconciliation key); the spec gives a page a stable identifier and a
    height measured once it is mounted.  [offsetHeight] is the height of the
    element rendered for the page. *)
Record IPageProps : Type := mkPage {
  id : Z;
  offsetHeight : Z
}.

(** ** lodash list helpers used by [addPage] *)

Module Lodash.

(** [_.head(array)]: first element, [undefined] on the empty array. *)
Definition head {A} (array : list A) : option A := list.head array.

(** [_.last(array)]: last element, [undefined] on the empty array. *)
Definition last {A} (array : list A) : option A := list.last array.

(** [_.take(array, n)]: slice from the start, a negative [n] counts as 0. *)
Definition take {A} (array : list A) (n : Z) : list A :=
  list.take (Z.to_nat n) array.

(** [_.takeRight(array, n)]: slice of the last [n] elements; the start index
    is [length - n] clamped below at 0, and a start past the end (negative
    [n]) gives the empty slice. *)
Definition takeRight {A} (array : list A) (n : Z) : list A :=
  list.drop (length array - Z.to_nat n)%nat array.

End Lodash.

(** ** The window update of [addPage] (both variants, after the [await]) *)

(** The [if (isScrollingUp) ... else ...] block computing [pages]. *)
Definition mergePage (isScrollingUp : bool) (page : IPageProps)
    (pages : list IPageProps) (maxPageBuffer : Z) : list IPageProps :=
  if isScrollingUp then
    let remainingPages := Lodash.take pages maxPageBuffer in
    page :: remainingPages
  else
    let remainingPages := Lodash.takeRight pages maxPageBuffer in
    remainingPages ++ [page].

(** A sequence of merges, oldest first, from a given window. *)
Definition mergeAll (maxPageBuffer : Z) (merges : list (bool * IPageProps))
    (pages : list IPageProps) : list IPageProps :=
  foldl (fun w m => mergePage (fst m) (snd m) w maxPageBuffer) pages merges.

Definition pageA : IPageProps := mkPage 1 100.
Definition pageB : IPageProps := mkPage 2 120.
Definition pageC : IPageProps := mkPage 3 80.

(** Identifiers of the pages of a window, in window order. *)
Definition pageIds (pages : list IPageProps) : list Z := id <$> pages.

(** Identifiers of the pages merged by a sequence of merges. *)
Definition mergedIds (merges : list (bool * IPageProps)) : list Z :=
  (fun m => id (snd m)) <$> merges.

(** ** Host calls *)

(** One call of [props.getPageBefore] ([callBefore = true]) or of
    [props.getPageAfter], with the argument it was given. *)
Record FetchCall : Type := mkCall {
  callBefore : bool;
  callArg : option IPageProps
}.

(** Number of host calls made for one direction. *)
Definition callsFor (isScrollingUp : bool) (log : list FetchCall) : nat :=
  length (filter (fun c => callBefore c = isScrollingUp) log).

(** [entry.intersectionRatio > threshold] *)
Definition ratioAbove (ratio threshold : Q) : bool :=
  negb (Qle_bool ratio threshold).

(** ** Main variant: [src/VirtualList.tsx] *)

Module Main.

Record IVirtualListSettings : Type := mkSettings {
  startBottomUp : bool;
  maxPageBuffer : Z;
  isPagingEnabled : bool;
  debug : bool
}.

(** [Partial<IVirtualListSettings>], typed view: every field is absent or
    holds a value of its type.  A key present with the value [undefined],
    which the type admits as well, has no place here; the spread of the
    constructor on arbitrary objects is [SettingsObject.spread], and
    [SettingsObject.ofMainPartial] embeds this record into them. *)
Record PartialSettings : Type := mkPartial {
  startBottomUp_opt : option bool;
  maxPageBuffer_opt : option Z;
  isPagingEnabled_opt : option bool;
  debug_opt : option bool
}.

Definition defaultSettings : IVirtualListSettings :=
  {| isPagingEnabled := true;
     startBottomUp := false;
     maxPageBuffer := 15;
     debug := false |}.

(** [{ ...base, ...over }] on the typed view: a property present in [over]
    wins.  It is [SettingsObject.spread] read on objects all of whose values
    are defined ([main_spread_typed]). *)
Definition spread (base : IVirtualListSettings) (over : PartialSettings)
    : IVirtualListSettings :=
  {| startBottomUp := default (startBottomUp base) (startBottomUp_opt over);
     maxPageBuffer := default (maxPageBuffer base) (maxPageBuffer_opt over);
     isPagingEnabled :=
       default (isPagingEnabled base) (isPagingEnabled_opt over);
     debug := default (debug base) (debug_opt over) |}.

(** [{ ...defaultSettings, ...this.props.settings }]; [props.settings] is
    itself optional, and spreading [undefined] adds nothing. *)
Definition effectiveSettings (propsSettings : option PartialSettings)
    : IVirtualListSettings :=
  match propsSettings with
  | Some over => spread defaultSettings over
  | None => defaultSettings
  end.

Record IVirtualListState : Type := mkState {
  pages : list IPageProps;
  settings : IVirtualListSettings;
  previousBufferHeight : Z;
  nextBufferHeight : Z;
  isScrollingUp : bool
}.

(** The component with the part of its surroundings it reads and writes:
    the viewport's scroll offset, the rendered height of the trailing
    buffer element, the host promises that have not settled yet (each with
    the suspended [addPage] behind it) and the log of host calls. *)
Record World : Type := mkWorld {
  state : IVirtualListState;
  runwayY : Z;
  scrollTop : Z;
  nextBufferPx : Z;
  pending : list FetchCall;
  fetchLog : list FetchCall
}.

Definition withState (st : IVirtualListState) (w : World) : World :=
  {| state := st; runwayY := runwayY w; scrollTop := scrollTop w;
     nextBufferPx := nextBufferPx w; pending := pending w;
     fetchLog := fetchLog w |}.

Definition withScrollTop (top : Z) (w : World) : World :=
  {| state := state w; runwayY := runwayY w; scrollTop := top;
     nextBufferPx := nextBufferPx w; pending := pending w;
     fetchLog := fetchLog w |}.

Definition withPending (p : list FetchCall) (w : World) : World :=
  {| state := state w; runwayY := runwayY w; scrollTop := scrollTop w;
     nextBufferPx := nextBufferPx w; pending := p;
     fetchLog := fetchLog w |}.

(** The constructor's state. *)
Definition initialState (propsSettings : option PartialSettings)
    : IVirtualListState :=
  let settings := effectiveSettings propsSettings in
  {| pages := [];
     previousBufferHeight := 0;
     nextBufferHeight := 0;
     settings := settings;
     isScrollingUp := startBottomUp settings |}.

(** [this.previousBuffer.nextElementSibling.offsetHeight]: the element after
    the leading buffer is the first page, or the trailing buffer when no
    page is mounted. *)
Definition afterPreviousBufferPx (w : World) : Z :=
  match Lodash.head (pages (state w)) with
  | Some page => offsetHeight page
  | None => nextBufferPx w
  end.

(** The callback [adjustScrollTop] hands to [requestAnimationFrame], for the
    arguments [adjustScrollTop] was called with: it reads the element after
    the leading buffer and writes the scroll offset when the frame runs.
    When it runs is decided by its callers: [setState] below runs it before
    anything else happens, [MainFrames] queues it until the next frame. *)
Definition adjustScrollTop (isScrollingUp : bool) (previousScrollTop : Z)
    (w : World) : World :=
  if isScrollingUp then
    let newScrollTop := previousScrollTop + afterPreviousBufferPx w in
    withScrollTop newScrollTop w
  else w.

(** [this.setState(...)] followed by the update cycle it starts and by the
    animation frame after it: [getSnapshotBeforeUpdate] reads the scroll
    offset, the new state is rendered, [componentDidUpdate] calls
    [adjustScrollTop] with the PREVIOUS state's [isScrollingUp] and the
    snapshot, and the frame callback runs before the next event.  This is the
    component when every update gets an animation frame of its own; updates
    that share a frame are in [MainFrames], and [frames_step_then_frame]
    relates the two. *)
Definition setState (update : IVirtualListState -> IVirtualListState)
    (w : World) : World :=
  let prevState := state w in
  let snapshot := scrollTop w in
  adjustScrollTop (isScrollingUp prevState) snapshot
    (withState (update prevState) w).

(** [addPage] up to its [await]: the host is called with the page at the
    edge of the current window. *)
Definition addPage_call (isScrollingUp : bool) (w : World) : World :=
  let call :=
    if isScrollingUp
    then mkCall true (Lodash.head (pages (state w)))
    else mkCall false (Lodash.last (pages (state w))) in
  {| state := state w; runwayY := runwayY w; scrollTop := scrollTop w;
     nextBufferPx := nextBufferPx w;
     pending := pending w ++ [call];
     fetchLog := fetchLog w ++ [call] |}.

(** [addPage] from its [await] on, once the promise has settled with
    [page] ([None] is [undefined]). *)
Definition addPage_resume (isScrollingUp : bool) (page : option IPageProps)
    (w : World) : World :=
  match page with
  | None => w
  | Some page =>
      setState
        (fun st =>
           {| pages := mergePage isScrollingUp page (pages (state w))
                         (maxPageBuffer (settings (state w)));
              settings := settings st;
              previousBufferHeight := previousBufferHeight st;
              nextBufferHeight := nextBufferHeight st;
              isScrollingUp := isScrollingUp |})
        w
  end.

Definition handleIntersection (targetIsPreviousBuffer : bool)
    (intersectionRatio : Q) (w : World) : World :=
  let isScrollingUp := targetIsPreviousBuffer in
  let isIntersecting := ratioAbove intersectionRatio 0 in
  if negb isIntersecting || negb (isPagingEnabled (settings (state w)))
  then w
  else addPage_call isScrollingUp w.

(** The boolean settings the debug panel can flip. *)
Inductive BoolSetting : Type :=
  SStartBottomUp | SIsPagingEnabled | SDebug.

Definition flipSetting (setting : BoolSetting) (s : IVirtualListSettings)
    : IVirtualListSettings :=
  match setting with
  | SStartBottomUp =>
      mkSettings (negb (startBottomUp s)) (maxPageBuffer s)
        (isPagingEnabled s) (debug s)
  | SIsPagingEnabled =>
      mkSettings (startBottomUp s) (maxPageBuffer s)
        (negb (isPagingEnabled s)) (debug s)
  | SDebug =>
      mkSettings (startBottomUp s) (maxPageBuffer s)
        (isPagingEnabled s) (negb (debug s))
  end.

Definition toggle (setting : BoolSetting) (w : World) : World :=
  setState
    (fun st =>
       {| pages := pages st;
          settings := flipSetting setting (settings (state w));
          previousBufferHeight := previousBufferHeight st;
          nextBufferHeight := nextBufferHeight st;
          isScrollingUp := isScrollingUp st |})
    w.

(** [setup], called from [componentDidMount]. *)
Definition setup (viewportHeight : Z) (w : World) : World :=
  setState
    (fun st =>
       {| pages := pages st;
          settings := settings st;
          previousBufferHeight := viewportHeight;
          nextBufferHeight := viewportHeight;
          isScrollingUp := isScrollingUp st |})
    w.

(** The component right after construction and mount. *)
Definition mount (propsSettings : option PartialSettings)
    (viewportHeight nextBufferOffsetHeight : Z) : World :=
  setup viewportHeight
    {| state := initialState propsSettings;
       runwayY := 0;
       scrollTop := 0;
       nextBufferPx := nextBufferOffsetHeight;
       pending := [];
       fetchLog := [] |}.

(** What the event loop delivers. *)
Inductive Event : Type :=
| Intersection (targetIsPreviousBuffer : bool) (intersectionRatio : Q)
| Settled (k : nat) (result : option IPageProps)
| DebugAddPage (isScrollingUp : bool)
| DebugToggle (setting : BoolSetting)
| NativeScroll (top : Z).

(** [Settled k r]: the [k]-th outstanding promise settles with [r] and the
    [addPage] waiting for it resumes; nothing happens when there is no such
    promise. *)
Definition step (w : World) (e : Event) : World :=
  match e with
  | Intersection target ratio => handleIntersection target ratio w
  | Settled k result =>
      match pending w !! k with
      | Some call =>
          addPage_resume (callBefore call) result
            (withPending (delete k (pending w)) w)
      | None => w
      end
  | DebugAddPage isScrollingUp => addPage_call isScrollingUp w
  | DebugToggle setting => toggle setting w
  | NativeScroll top => withScrollTop top w
  end.

Definition run (w : World) (events : list Event) : World :=
  foldl step w events.

End Main.

(** ** Case-insensitive pattern test on the user agent string *)

(** ASCII lower-casing; the /i flag of a pattern made of ASCII letters only
    identifies an ASCII letter with its other case and nothing else. *)
Definition toLowerAscii (c : ascii) : ascii :=
  let n := nat_of_ascii c in
  if ((65 <=? n)%nat && (n <=? 90)%nat)%bool then ascii_of_nat (n + 32) else c.

Fixpoint prefixIgnoreCase (pattern text : string) : bool :=
  match pattern, text with
  | EmptyString, _ => true
  | String a pattern', String b text' =>
      Ascii.eqb (toLowerAscii a) (toLowerAscii b)
      && prefixIgnoreCase pattern' text'
  | String _ _, EmptyString => false
  end.

(** [/word/i.test(text)]: [word] occurs somewhere in [text], letter case
    ignored. *)
Fixpoint testIgnoreCase (word text : string) : bool :=
  prefixIgnoreCase word text
  || match text with
     | EmptyString => false
     | String _ text' => testIgnoreCase word text'
     end.

(** ** Legacy variant: the second source file *)

Module Legacy.

(** [getDelta(event)], reading [navigator.userAgent]. *)
Definition getDelta (userAgent : string) (deltaY : Z) : Z :=
  if testIgnoreCase "chrome" userAgent then deltaY * -3
  else if testIgnoreCase "firefox" userAgent then deltaY * -3
  else if testIgnoreCase "safari" userAgent then deltaY * -300
  else 0.

Record IVirtualListSettings : Type := mkSettings {
  startBottomUp : bool;
  maxPageBuffer : Z;
  debug : bool
}.

(** Typed view of [Partial<IVirtualListSettings>], as in the main variant:
    keys absent or holding a value of their type. *)
Record PartialSettings : Type := mkPartial {
  startBottomUp_opt : option bool;
  maxPageBuffer_opt : option Z;
  debug_opt : option bool
}.

Definition defaultSettings : IVirtualListSettings :=
  {| startBottomUp := false;
     maxPageBuffer := 10;
     debug := false |}.

(** [{ ...base, ...over }] on the typed view
    ([legacy_spread_typed]). *)
Definition spread (base : IVirtualListSettings) (over : PartialSettings)
    : IVirtualListSettings :=
  {| startBottomUp := default (startBottomUp base) (startBottomUp_opt over);
     maxPageBuffer := default (maxPageBuffer base) (maxPageBuffer_opt over);
     debug := default (debug base) (debug_opt over) |}.

Definition effectiveSettings (propsSettings : option PartialSettings)
    : IVirtualListSettings :=
  match propsSettings with
  | Some over => spread defaultSettings over
  | None => defaultSettings
  end.

Record IVirtualListState : Type := mkState {
  pages : list IPageProps;
  settings : IVirtualListSettings
}.

Record ScrollStatus : Type := mkStatus {
  canScrollUp : bool;
  canScrollDown : bool
}.

(** The component, [navigator.userAgent], the rendered heights of the two
    buffer elements, the outstanding host promises and the call log. *)
Record World : Type := mkWorld {
  state : IVirtualListState;
  scrollStatus : ScrollStatus;
  runwayY : Z;
  userAgent : string;
  previousBufferPx : Z;
  nextBufferPx : Z;
  pending : list FetchCall;
  fetchLog : list FetchCall
}.

Definition withState (st : IVirtualListState) (w : World) : World :=
  mkWorld st (scrollStatus w) (runwayY w) (userAgent w)
    (previousBufferPx w) (nextBufferPx w) (pending w) (fetchLog w).

Definition withScrollStatus (s : ScrollStatus) (w : World) : World :=
  mkWorld (state w) s (runwayY w) (userAgent w)
    (previousBufferPx w) (nextBufferPx w) (pending w) (fetchLog w).

Definition withPending (p : list FetchCall) (w : World) : World :=
  mkWorld (state w) (scrollStatus w) (runwayY w) (userAgent w)
    (previousBufferPx w) (nextBufferPx w) p (fetchLog w).

(** [slideRunwayInPx]; the animation frame only copies [runwayY] into the
    style of the runway element. *)
Definition slideRunwayInPx (delta : Z) (w : World) : World :=
  mkWorld (state w) (scrollStatus w) (runwayY w + delta) (userAgent w)
    (previousBufferPx w) (nextBufferPx w) (pending w) (fetchLog w).

Definition onWheel (deltaY : Z) (w : World) : World :=
  let delta := getDelta (userAgent w) deltaY in
  let goingUp := 0 <=? delta in
  if (negb (canScrollUp (scrollStatus w)) && goingUp)
     || (negb (canScrollDown (scrollStatus w)) && negb goingUp)
  then w
  else slideRunwayInPx delta w.

(** [this.previousBuffer.nextElementSibling.offsetHeight], for a runway whose
    page elements are those of the window, in window order.  The page
    elements are keyed by [page.id]: this is the rendered runway as long as
    the windows rendered so far had pairwise distinct identifiers
    ([legacyKeysDistinct]); with a repeated key the element found there need
    not be the one of the first page. *)
Definition afterPreviousBufferPx (w : World) : Z :=
  match Lodash.head (pages (state w)) with
  | Some page => offsetHeight page
  | None => nextBufferPx w
  end.

(** [this.nextBuffer.previousElementSibling.offsetHeight], under the same
    condition on the keys. *)
Definition beforeNextBufferPx (w : World) : Z :=
  match Lodash.last (pages (state w)) with
  | Some page => offsetHeight page
  | None => previousBufferPx w
  end.

Definition slideRunwayToBuffer (isGoingUp : bool) (prunedElementHeight : Z)
    (w : World) : World :=
  if negb isGoingUp then w
  else slideRunwayInPx (- afterPreviousBufferPx w + prunedElementHeight) w.

Definition addPage_call (isScrollingUp : bool) (w : World) : World :=
  let call :=
    if isScrollingUp
    then mkCall true (Lodash.head (pages (state w)))
    else mkCall false (Lodash.last (pages (state w))) in
  mkWorld (state w) (scrollStatus w) (runwayY w) (userAgent w)
    (previousBufferPx w) (nextBufferPx w)
    (pending w ++ [call]) (fetchLog w ++ [call]).

(** [this.state.pages[index]]: [undefined] outside the array. *)
Definition pageAt (pages : list IPageProps) (index : Z)
    : option IPageProps :=
  if index <? 0 then None else pages !! Z.to_nat index.

(** The height recorded for the page about to be pruned, 0 when none is. *)
Definition prunedElementHeight (isScrollingUp : bool) (w : World) : Z :=
  if isScrollingUp then
    match pageAt (pages (state w)) (maxPageBuffer (settings (state w))) with
    | Some prune => beforeNextBufferPx w
    | None => 0
    end
  else 0.

Definition addPage_resume (isScrollingUp : bool) (page : option IPageProps)
    (w : World) : World :=
  match page with
  | None => w
  | Some page =>
      let pruned := prunedElementHeight isScrollingUp w in
      let pages' :=
        mergePage isScrollingUp page (pages (state w))
          (maxPageBuffer (settings (state w))) in
      slideRunwayToBuffer isScrollingUp pruned
        (withState (mkState pages' (settings (state w))) w)
  end.

Definition handleIntersection (targetIsPreviousBuffer : bool)
    (intersectionRatio : Q) (w : World) : World :=
  let isScrollingUp := targetIsPreviousBuffer in
  let isIntersecting := ratioAbove intersectionRatio (5 # 100) in
  let shouldPauseScrolling := ratioAbove intersectionRatio (2 # 10) in
  let w1 :=
    withScrollStatus
      {| canScrollUp :=
           if isScrollingUp then negb shouldPauseScrolling
           else canScrollUp (scrollStatus w);
         canScrollDown :=
           if negb isScrollingUp then negb shouldPauseScrolling
           else canScrollDown (scrollStatus w) |}
      w in
  if negb isIntersecting || debug (settings (state w1))
  then w1
  else addPage_call isScrollingUp w1.

(** [setup], called from [componentDidMount]. *)
Definition setup (w : World) : World :=
  if negb (startBottomUp (settings (state w)))
  then slideRunwayInPx (- nextBufferPx w) w
  else w.

Definition mount (propsSettings : option PartialSettings)
    (navigatorUserAgent : string)
    (previousBufferOffsetHeight nextBufferOffsetHeight : Z) : World :=
  setup
    {| state := {| pages := [];
                   settings := effectiveSettings propsSettings |};
       scrollStatus := {| canScrollUp := true; canScrollDown := true |};
       runwayY := 0;
       userAgent := navigatorUserAgent;
       previousBufferPx := previousBufferOffsetHeight;
       nextBufferPx := nextBufferOffsetHeight;
       pending := [];
       fetchLog := [] |}.

Inductive Event : Type :=
| Intersection (targetIsPreviousBuffer : bool) (intersectionRatio : Q)
| Settled (k : nat) (result : option IPageProps)
| DebugAddPage (isScrollingUp : bool)
| Wheel (deltaY : Z).

Definition step (w : World) (e : Event) : World :=
  match e with
  | Intersection target ratio => handleIntersection target ratio w
  | Settled k result =>
      match pending w !! k with
      | Some call =>
          addPage_resume (callBefore call) result
            (withPending (delete k (pending w)) w)
      | None => w
      end
  | DebugAddPage isScrollingUp => addPage_call isScrollingUp w
  | Wheel deltaY => onWheel deltaY w
  end.

Definition run (w : World) (events : list Event) : World :=
  foldl step w events.

End Legacy.

(** ** The main variant with its animation frames *)

Module MainFrames.

(** The component of [Main] together with the callbacks handed to
    [requestAnimationFrame] that have not run yet, oldest first: the
    arguments [adjustScrollTop] was called with. *)
Record World : Type := mkWorld {
  component : Main.World;
  frameCallbacks : list (bool * Z)
}.

Definition ofMain (w : Main.World) : World := mkWorld w [].

(** [this.setState(...)] and the update cycle it starts:
    [getSnapshotBeforeUpdate] reads the scroll offset, the new state is
    rendered, and [componentDidUpdate] calls [adjustScrollTop] with the
    previous state's [isScrollingUp] and the snapshot, which only queues the
    frame callback. *)
Definition setState
    (update : Main.IVirtualListState -> Main.IVirtualListState)
    (fw : World) : World :=
  let w := component fw in
  let prevState := Main.state w in
  let snapshot := Main.scrollTop w in
  {| component := Main.withState (update prevState) w;
     frameCallbacks :=
       frameCallbacks fw ++ [(Main.isScrollingUp prevState, snapshot)] |}.

(** An animation frame: the queued callbacks run in the order they were
    queued, each reading the runway as it is now. *)
Definition animationFrame (fw : World) : World :=
  {| component :=
       foldl (fun w callback =>
                Main.adjustScrollTop (fst callback) (snd callback) w)
         (component fw) (frameCallbacks fw);
     frameCallbacks := [] |}.

Definition addPage_resume (isScrollingUp : bool) (page : option IPageProps)
    (fw : World) : World :=
  match page with
  | None => fw
  | Some page =>
      let w := component fw in
      setState
        (fun st =>
           {| Main.pages :=
                mergePage isScrollingUp page (Main.pages (Main.state w))
                  (Main.maxPageBuffer (Main.settings (Main.state w)));
              Main.settings := Main.settings st;
              Main.previousBufferHeight := Main.previousBufferHeight st;
              Main.nextBufferHeight := Main.nextBufferHeight st;
              Main.isScrollingUp := isScrollingUp |})
        fw
  end.

Definition toggle (setting : Main.BoolSetting) (fw : World) : World :=
  let w := component fw in
  setState
    (fun st =>
       {| Main.pages := Main.pages st;
          Main.settings :=
            Main.flipSetting setting (Main.settings (Main.state w));
          Main.previousBufferHeight := Main.previousBufferHeight st;
          Main.nextBufferHeight := Main.nextBufferHeight st;
          Main.isScrollingUp := Main.isScrollingUp st |})
    fw.

(** [setup], called from [componentDidMount]. *)
Definition setup (viewportHeight : Z) (fw : World) : World :=
  setState
    (fun st =>
       {| Main.pages := Main.pages st;
          Main.settings := Main.settings st;
          Main.previousBufferHeight := viewportHeight;
          Main.nextBufferHeight := viewportHeight;
          Main.isScrollingUp := Main.isScrollingUp st |})
    fw.

Definition mount (propsSettings : option Main.PartialSettings)
    (viewportHeight nextBufferOffsetHeight : Z) : World :=
  setup viewportHeight
    (ofMain
       {| Main.state := Main.initialState propsSettings;
          Main.runwayY := 0;
          Main.scrollTop := 0;
          Main.nextBufferPx := nextBufferOffsetHeight;
          Main.pending := [];
          Main.fetchLog := [] |}).

(** The events of [Main], and the animation frame. *)
Inductive Event : Type :=
| Component (e : Main.Event)
| AnimationFrame.

Definition step (fw : World) (e : Event) : World :=
  match e with
  | AnimationFrame => animationFrame fw
  | Component (Main.Settled k result) =>
      match Main.pending (component fw) !! k with
      | Some call =>
          addPage_resume (callBefore call) result
            {| component :=
                 Main.withPending (delete k (Main.pending (component fw)))
                   (component fw);
               frameCallbacks := frameCallbacks fw |}
      | None => fw
      end
  | Component (Main.DebugToggle setting) => toggle setting fw
  | Component (Main.Intersection target ratio) =>
      {| component := Main.handleIntersection target ratio (component fw);
         frameCallbacks := frameCallbacks fw |}
  | Component (Main.DebugAddPage isScrollingUp) =>
      {| component := Main.addPage_call isScrollingUp (component fw);
         frameCallbacks := frameCallbacks fw |}
  | Component (Main.NativeScroll top) =>
      {| component := Main.withScrollTop top (component fw);
         frameCallbacks := frameCallbacks fw |}
  end.

Definition run (fw : World) (events : list Event) : World :=
  foldl step fw events.

(** The given events, each followed by an animation frame. *)
Definition framed (events : list Main.Event) : list Event :=
  events ≫= (fun e => [Component e; AnimationFrame]).

End MainFrames.

(** ** Settings as the objects the constructors spread *)

(** The values a settings property can hold. *)
Inductive JsValue : Type :=
| JsUndefined
| JsBoolean (b : bool)
| JsNumber (n : Z).

Module SettingsObject.

(** [{ ...base, ...over }]: the own properties of [over], and those of [base]
    that [over] lacks.  A property of [over] whose value is [undefined] is a
    property like any other and replaces the one of [base]. *)
Definition spread (base over : gmap string JsValue) : gmap string JsValue :=
  over ∪ base.

(** [defaultSettings] of the main variant. *)
Definition mainDefaultSettings : gmap string JsValue :=
  {[ "isPagingEnabled" := JsBoolean true;
     "startBottomUp" := JsBoolean false;
     "maxPageBuffer" := JsNumber 15;
     "debug" := JsBoolean false ]}.

(** [defaultSettings] of the legacy variant. *)
Definition legacyDefaultSettings : gmap string JsValue :=
  {[ "startBottomUp" := JsBoolean false;
     "maxPageBuffer" := JsNumber 10;
     "debug" := JsBoolean false ]}.

(** [{ ...defaultSettings, ...this.props.settings }] of either constructor;
    [props.settings] may be [undefined], and spreading [undefined] adds no
    property. *)
Definition constructorSettings (defaultSettings : gmap string JsValue)
    (propsSettings : option (gmap string JsValue)) : gmap string JsValue :=
  match propsSettings with
  | Some over => spread defaultSettings over
  | None => defaultSettings
  end.

(** An optional typed field as an object with at most that property. *)
Definition property {T} (inject : T -> JsValue) (key : string)
    (field : option T) : gmap string JsValue :=
  match field with
  | Some value => {[ key := inject value ]}
  | None => ∅
  end.

(** The typed records of [Main] and [Legacy] as objects. *)
Definition ofMainPartial (over : Main.PartialSettings)
    : gmap string JsValue :=
  property JsBoolean "startBottomUp" (Main.startBottomUp_opt over)
  ∪ property JsNumber "maxPageBuffer" (Main.maxPageBuffer_opt over)
  ∪ property JsBoolean "isPagingEnabled" (Main.isPagingEnabled_opt over)
  ∪ property JsBoolean "debug" (Main.debug_opt over).

Definition ofMainSettings (settings : Main.IVirtualListSettings)
    : gmap string JsValue :=
  {[ "isPagingEnabled" := JsBoolean (Main.isPagingEnabled settings);
     "startBottomUp" := JsBoolean (Main.startBottomUp settings);
     "maxPageBuffer" := JsNumber (Main.maxPageBuffer settings);
     "debug" := JsBoolean (Main.debug settings) ]}.

Definition ofLegacyPartial (over : Legacy.PartialSettings)
    : gmap string JsValue :=
  property JsBoolean "startBottomUp" (Legacy.startBottomUp_opt over)
  ∪ property JsNumber "maxPageBuffer" (Legacy.maxPageBuffer_opt over)
  ∪ property JsBoolean "debug" (Legacy.debug_opt over).

Definition ofLegacySettings (settings : Legacy.IVirtualListSettings)
    : gmap string JsValue :=
  {[ "startBottomUp" := JsBoolean (Legacy.startBottomUp settings);
     "maxPageBuffer" := JsNumber (Legacy.maxPageBuffer settings);
     "debug" := JsBoolean (Legacy.debug settings) ]}.

End SettingsObject.

(** ** Conditions on runs *)

(** Each page is merged into a window that does not hold its identifier at
    that moment. *)
Fixpoint freshAtMerge (maxPageBuffer : Z) (pages : list IPageProps)
    (merges : list (bool * IPageProps)) : Prop :=
  match merges with
  | [] => True
  | merge :: merges' =>
      (id (snd merge) ∉ pageIds pages)
      /\ freshAtMerge maxPageBuffer
           (mergePage (fst merge) (snd merge) pages maxPageBuffer) merges'
  end.

(** The window of [w] and every window along the run of [events] from [w]
    have pairwise distinct identifiers: the page elements of the legacy
    runway, keyed by [page.id], are then those of the window, in window
    order. *)
Fixpoint legacyKeysDistinct (w : Legacy.World) (events : list Legacy.Event)
    : Prop :=
  NoDup (pageIds (Legacy.pages (Legacy.state w)))
  /\ match events with
     | [] => True
     | e :: events' => legacyKeysDistinct (Legacy.step w e) events'
     end.

(** Events that merge no page: all but a promise settling with a page. *)
Definition mainMergesNothing (e : Main.Event) : bool :=
  match e with
  | Main.Settled _ (Some _) => false
  | _ => true
  end.

Definition legacyMergesNothing (e : Legacy.Event) : bool :=
  match e with
  | Legacy.Settled _ (Some _) => false
  | _ => true
  end.

(** The results of consecutive [getPageBefore] calls merged by the main
    variant, an animation frame running after each merge. *)
Definition framesPrependEach (fw : MainFrames.World) (ps : list IPageProps)
    : MainFrames.World :=
  foldl
    (fun fw p =>
       MainFrames.animationFrame (MainFrames.addPage_resume true (Some p) fw))
    fw ps.

(** The same merges, all of them before the next animation frame, and that
    frame. *)
Definition framesPrependTogether (fw : MainFrames.World)
    (ps : list IPageProps) : MainFrames.World :=
  MainFrames.animationFrame
    (foldl (fun fw p => MainFrames.addPage_resume true (Some p) fw) fw ps).

(** ** Runs and measures used in the statements *)

(** The given pages appended (resp. prepended) one after the other, the first
    of the list first. *)
Definition appends (ps : list IPageProps) : list (bool * IPageProps) :=
  (fun p => (false, p)) <$> ps.

Definition prepends (ps : list IPageProps) : list (bool * IPageProps) :=
  (fun p => (true, p)) <$> ps.

(** Total rendered height of a list of pages. *)
Definition totalHeight (ps : list IPageProps) : Z :=
  foldr (fun p acc => offsetHeight p + acc) 0 ps.

(** Events that are not manual actions of the debug surface. *)
Definition mainAutomatic (e : Main.Event) : bool :=
  match e with
  | Main.DebugAddPage _ | Main.DebugToggle _ => false
  | Main.Intersection _ _ | Main.Settled _ _ | Main.NativeScroll _ => true
  end.

Definition legacyAutomatic (e : Legacy.Event) : bool :=
  match e with
  | Legacy.DebugAddPage _ => false
  | Legacy.Intersection _ _ | Legacy.Settled _ _ | Legacy.Wheel _ => true
  end.

(** The results of consecutive [getPageBefore] calls merged one after the
    other by the main variant. *)
Definition mainPrependAll (w : Main.World) (ps : list IPageProps)
    : Main.World :=
  foldl (fun w p => Main.addPage_resume true (Some p) w) w ps.

(** Sum of the runway deltas of a sequence of wheel events. *)
Definition wheelTotal (agent : string) (deltaYs : list Z) : Z :=
  foldr (fun deltaY acc => Legacy.getDelta agent deltaY + acc) 0 deltaYs.

(** * Properties of the page window *)

Section PageWindow.

Implicit Types (page : IPageProps) (pages : list IPageProps).
Implicit Types (maxPageBuffer : Z) (merges : list (bool * IPageProps)).

Lemma length_mergePage isScrollingUp page pages maxPageBuffer :
  length (mergePage isScrollingUp page pages maxPageBuffer)
  = S (Nat.min (Z.to_nat maxPageBuffer) (length pages)).
Proof.
  unfold mergePage, Lodash.take, Lodash.takeRight.
  destruct isScrollingUp; cbn [length].
  - now rewrite length_take.
  - rewrite length_app, length_drop. cbn [length]. lia.
Qed.

Lemma mergeAll_snoc maxPageBuffer merges isScrollingUp page pages :
  mergeAll maxPageBuffer (merges ++ [(isScrollingUp, page)]) pages
  = mergePage isScrollingUp page (mergeAll maxPageBuffer merges pages)
      maxPageBuffer.
Proof. unfold mergeAll. now rewrite foldl_snoc. Qed.

(** After [k] merges a window that started within the bound holds
    [min (length + k) (maxPageBuffer + 1)] pages. *)
Lemma length_mergeAll maxPageBuffer merges pages :
  (length pages <= Z.to_nat maxPageBuffer + 1)%nat ->
  length (mergeAll maxPageBuffer merges pages)
  = Nat.min (length pages + length merges) (Z.to_nat maxPageBuffer + 1).
Proof.
  revert pages.
  induction merges as [|[d p] merges IH]; intros pages Hlen; cbn.
  - lia.
  - fold (mergeAll maxPageBuffer merges
            (mergePage d p pages maxPageBuffer)).
    rewrite IH; rewrite length_mergePage; lia.
Qed.

(** A window within capacity loses no page. *)
Lemma mergePage_keeps_all page pages maxPageBuffer :
  Z.of_nat (length pages) <= maxPageBuffer ->
  mergePage false page pages maxPageBuffer = pages ++ [page]
  /\ mergePage true page pages maxPageBuffer = page :: pages.
Proof.
  intros Hlen. unfold mergePage, Lodash.take, Lodash.takeRight. split.
  - replace (length pages - Z.to_nat maxPageBuffer)%nat with 0%nat by lia.
    reflexivity.
  - rewrite take_ge by lia. reflexivity.
Qed.

(** A window one page over capacity loses the page at the far end. *)
Lemma mergePage_evicts_far_end page pages maxPageBuffer :
  Z.of_nat (length pages) = maxPageBuffer + 1 ->
  mergePage false page pages maxPageBuffer = tail pages ++ [page]
  /\ mergePage true page pages maxPageBuffer = page :: removelast pages.
Proof.
  intros Hlen. unfold mergePage, Lodash.take, Lodash.takeRight. split.
  - destruct pages as [|first rest]; [now rewrite drop_nil|].
    cbn [length] in *.
    replace (S (length rest) - Z.to_nat maxPageBuffer)%nat with 1%nat by lia.
    reflexivity.
  - destruct pages as [|first rest]; [now rewrite take_nil|].
    rewrite removelast_firstn_len. cbn [length] in *.
    replace (Nat.pred (S (length rest))) with (Z.to_nat maxPageBuffer)
      by lia.
    reflexivity.
Qed.

Lemma pageIds_mergePage isScrollingUp page pages maxPageBuffer x :
  x ∈ pageIds (mergePage isScrollingUp page pages maxPageBuffer) ->
  x = id page \/ x ∈ pageIds pages.
Proof.
  unfold pageIds, mergePage, Lodash.take, Lodash.takeRight.
  destruct isScrollingUp.
  - rewrite fmap_cons, fmap_take, elem_of_cons.
    intros [->|Hin]; [now left|right].
    eapply elem_of_sublist; [exact Hin|apply sublist_take].
  - rewrite fmap_app, fmap_drop, elem_of_app. cbn.
    intros [Hin|Hin].
    + right. eapply elem_of_sublist; [exact Hin|apply sublist_drop].
    + left. now apply list_elem_of_singleton in Hin.
Qed.

Lemma NoDup_pageIds_mergePage isScrollingUp page pages maxPageBuffer :
  NoDup (pageIds pages) ->
  id page ∉ pageIds pages ->
  NoDup (pageIds (mergePage isScrollingUp page pages maxPageBuffer)).
Proof.
  intros Hnd Hfresh.
  unfold pageIds, mergePage, Lodash.take, Lodash.takeRight.
  destruct isScrollingUp.
  - rewrite fmap_cons, fmap_take. apply NoDup_cons. split.
    + intros Hin. apply Hfresh.
      eapply elem_of_sublist; [exact Hin|apply sublist_take].
    + eapply sublist_NoDup; [exact Hnd|apply sublist_take].
  - rewrite fmap_app, fmap_drop. cbn. apply NoDup_app. repeat split.
    + eapply sublist_NoDup; [exact Hnd|apply sublist_drop].
    + intros x Hin Hx. apply list_elem_of_singleton in Hx. subst x.
      apply Hfresh.
      eapply elem_of_sublist; [exact Hin|apply sublist_drop].
    + apply NoDup_singleton.
Qed.

Lemma mergeAll_ids_fresh maxPageBuffer merges :
  NoDup (mergedIds merges) ->
  NoDup (pageIds (mergeAll maxPageBuffer merges []))
  /\ (forall x, x ∈ pageIds (mergeAll maxPageBuffer merges []) ->
                x ∈ mergedIds merges).
Proof.
  induction merges as [|[d p] merges IH] using rev_ind.
  - intros _. cbn. split; [constructor|]. intros x Hx.
    now apply elem_of_nil in Hx.
  - unfold mergedIds. rewrite fmap_app. cbn [fmap list_fmap snd].
    intros Hnd. apply NoDup_app in Hnd as (Hnd & Hdisj & _).
    destruct (IH Hnd) as [IHnd IHsub].
    rewrite mergeAll_snoc. split.
    + apply NoDup_pageIds_mergePage; [exact IHnd|].
      intros Hin. apply (Hdisj (id p)); [now apply IHsub|].
      apply list_elem_of_singleton. reflexivity.
    + intros x Hx. apply elem_of_app.
      destruct (pageIds_mergePage _ _ _ _ _ Hx) as [->|Hin].
      * right. now apply list_elem_of_singleton.
      * left. now apply IHsub.
Qed.

End PageWindow.

(** * Counting host calls *)

Lemma callsFor_snoc isScrollingUp log call :
  callsFor isScrollingUp (log ++ [call])
  = (callsFor isScrollingUp log
     + if bool_decide (callBefore call = isScrollingUp) then 1 else 0)%nat.
Proof.
  unfold callsFor. rewrite filter_app, length_app. f_equal.
  rewrite filter_cons, filter_nil.
  case_bool_decide; case_decide; try contradiction; reflexivity.
Qed.

(** * The main variant as a transition system *)

Section MainFacts.

Import Main.
Implicit Types (w : World) (e : Event).

Lemma handleIntersection_calls_host target ratio w :
  ratioAbove ratio 0 = true ->
  isPagingEnabled (settings (state w)) = true ->
  handleIntersection target ratio w = addPage_call target w.
Proof.
  intros Hr Hp. unfold handleIntersection. now rewrite Hr, Hp.
Qed.

Lemma addPage_call_log isScrollingUp w :
  callsFor isScrollingUp (fetchLog (addPage_call isScrollingUp w))
  = S (callsFor isScrollingUp (fetchLog w))
  /\ length (pending (addPage_call isScrollingUp w))
     = S (length (pending w))
  /\ state (addPage_call isScrollingUp w) = state w
  /\ scrollTop (addPage_call isScrollingUp w) = scrollTop w.
Proof.
  unfold addPage_call. cbn [fetchLog pending state scrollTop].
  rewrite callsFor_snoc, length_app. cbn [length].
  repeat split; try lia.
  destruct isScrollingUp; cbn [callBefore];
    rewrite bool_decide_eq_true_2; auto; lia.
Qed.

(** The scroll offset after a merge: the snapshot, plus the height of the
    first page of the new window when the state BEFORE the merge had
    [isScrollingUp] set. *)
Lemma scrollTop_addPage_resume isScrollingUp' page w :
  scrollTop (addPage_resume isScrollingUp' (Some page) w)
  = if isScrollingUp (state w)
    then scrollTop w
         + match mergePage isScrollingUp' page (pages (state w))
                   (maxPageBuffer (settings (state w))) with
           | first :: _ => offsetHeight first
           | [] => nextBufferPx w
           end
    else scrollTop w.
Proof.
  unfold addPage_resume, setState, adjustScrollTop.
  destruct (isScrollingUp (state w)); [|reflexivity].
  unfold afterPreviousBufferPx, Lodash.head. cbn.
  destruct (mergePage _ _ _ _); reflexivity.
Qed.

Lemma state_addPage_resume isScrollingUp' page w :
  state (addPage_resume isScrollingUp' (Some page) w)
  = {| pages := mergePage isScrollingUp' page (pages (state w))
                  (maxPageBuffer (settings (state w)));
       settings := settings (state w);
       previousBufferHeight := previousBufferHeight (state w);
       nextBufferHeight := nextBufferHeight (state w);
       isScrollingUp := isScrollingUp' |}.
Proof.
  unfold addPage_resume, setState, adjustScrollTop.
  destruct (isScrollingUp (state w)); reflexivity.
Qed.

Lemma state_setState update w :
  state (setState update w) = update (state w).
Proof.
  unfold setState, adjustScrollTop.
  destruct (isScrollingUp (state w)); reflexivity.
Qed.

(** One step either keeps the window or merges one page into it, and never
    changes the capacity setting. *)
Lemma step_window w e :
  maxPageBuffer (settings (state (step w e)))
  = maxPageBuffer (settings (state w))
  /\ (pages (state (step w e)) = pages (state w)
      \/ exists d p,
           pages (state (step w e))
           = mergePage d p (pages (state w))
               (maxPageBuffer (settings (state w)))).
Proof.
  destruct e as [target ratio|k [page|]|d|setting|top]; cbn [step].
  - unfold handleIntersection.
    destruct (_ || _); [auto|]. unfold addPage_call; cbn; auto.
  - destruct (pending w !! k) as [call|]; [|auto].
    rewrite state_addPage_resume. cbn. split; [reflexivity|].
    right. eauto.
  - destruct (pending w !! k); auto.
  - unfold addPage_call; cbn; auto.
  - unfold toggle. rewrite state_setState. cbn.
    split; [|auto]. destruct setting; reflexivity.
  - cbn; auto.
Qed.

Lemma run_window_bound w events :
  (length (pages (state w))
   <= Z.to_nat (maxPageBuffer (settings (state w))) + 1)%nat ->
  (length (pages (state (run w events)))
   <= Z.to_nat (maxPageBuffer (settings (state w))) + 1)%nat.
Proof.
  revert w. induction events as [|e events IH]; intros w Hw; [exact Hw|].
  cbn. fold (run (step w e) events).
  destruct (step_window w e) as [Hmax Hpages].
  rewrite <- Hmax. apply IH. rewrite Hmax.
  destruct Hpages as [->|(d & p & ->)]; [exact Hw|].
  rewrite length_mergePage. lia.
Qed.

Lemma mount_window propsSettings viewportHeight nextBufferOffsetHeight :
  pages (state (mount propsSettings viewportHeight nextBufferOffsetHeight))
  = []
  /\ settings
       (state (mount propsSettings viewportHeight nextBufferOffsetHeight))
     = effectiveSettings propsSettings.
Proof. unfold mount, setup. rewrite state_setState. cbn. auto. Qed.

End MainFacts.

(** * The legacy variant as a transition system *)

Section LegacyFacts.

Import Legacy.
Implicit Types (w : World) (e : Event).

Lemma legacy_handleIntersection_calls_host target ratio w :
  ratioAbove ratio (5 # 100) = true ->
  debug (settings (state w)) = false ->
  fetchLog (handleIntersection target ratio w)
  = fetchLog w
      ++ [if target then mkCall true (Lodash.head (pages (state w)))
          else mkCall false (Lodash.last (pages (state w)))]
  /\ length (pending (handleIntersection target ratio w))
     = S (length (pending w))
  /\ state (handleIntersection target ratio w) = state w
  /\ runwayY (handleIntersection target ratio w) = runwayY w.
Proof.
  intros Hr Hd. unfold handleIntersection. cbn. rewrite Hr, Hd. cbn.
  rewrite length_app. cbn. repeat split; lia.
Qed.

Lemma legacy_state_addPage_resume isScrollingUp page w :
  state (addPage_resume isScrollingUp (Some page) w)
  = {| pages := mergePage isScrollingUp page (pages (state w))
                  (maxPageBuffer (settings (state w)));
       settings := settings (state w) |}.
Proof.
  unfold addPage_resume, slideRunwayToBuffer.
  destruct isScrollingUp; reflexivity.
Qed.

(** An append never moves the runway. *)
Lemma legacy_append_keeps_runwayY page w :
  runwayY (addPage_resume false (Some page) w) = runwayY w.
Proof. reflexivity. Qed.

(** A prepend moves the runway up by the height of the new first page, less
    the height recorded for a pruned page. *)
Lemma legacy_prepend_runwayY page w :
  runwayY (addPage_resume true (Some page) w)
  = runwayY w + (- offsetHeight page + prunedElementHeight true w).
Proof. reflexivity. Qed.

Lemma legacy_step_window w e :
  maxPageBuffer (settings (state (step w e)))
  = maxPageBuffer (settings (state w))
  /\ (pages (state (step w e)) = pages (state w)
      \/ exists d p,
           pages (state (step w e))
           = mergePage d p (pages (state w))
               (maxPageBuffer (settings (state w)))).
Proof.
  destruct e as [target ratio|k [page|]|d|deltaY]; cbn [step].
  - unfold handleIntersection. cbn.
    destruct (_ || _); [cbn; auto|]. unfold addPage_call; cbn; auto.
  - destruct (pending w !! k) as [call|]; [|auto].
    rewrite legacy_state_addPage_resume. cbn. split; [reflexivity|].
    right. eauto.
  - destruct (pending w !! k); auto.
  - unfold addPage_call; cbn; auto.
  - unfold onWheel. destruct (_ || _); cbn; auto.
Qed.

Lemma legacy_run_window_bound w events :
  (length (pages (state w))
   <= Z.to_nat (maxPageBuffer (settings (state w))) + 1)%nat ->
  (length (pages (state (run w events)))
   <= Z.to_nat (maxPageBuffer (settings (state w))) + 1)%nat.
Proof.
  revert w. induction events as [|e events IH]; intros w Hw; [exact Hw|].
  cbn. fold (run (step w e) events).
  destruct (legacy_step_window w e) as [Hmax Hpages].
  rewrite <- Hmax. apply IH. rewrite Hmax.
  destruct Hpages as [->|(d & p & ->)]; [exact Hw|].
  rewrite length_mergePage. lia.
Qed.

End LegacyFacts.

(** * The window bound and eviction *)

(** C1, as stated, fails: with [maxPageBuffer = 1] two appends from the empty
    window leave two pages mounted. *)
Lemma window_bound_counterexample :
  0 < 1
  /\ ~ Z.of_nat (length (mergeAll 1 [(false, pageA); (false, pageB)] [])) <= 1.
Proof. split; [lia|]. vm_compute. intros H. now apply H. Qed.

(** C1 (amended): for every sequence of prepend/append merges performed by
    [addPage] from the empty window, with any [maxPageBuffer > 0], the length
    of the pages window never exceeds [maxPageBuffer + 1]: the new page is
    added to at most [maxPageBuffer] pages kept from the old window. *)
Theorem window_bound_plus_one (maxPageBuffer : Z)
    (merges : list (bool * IPageProps)) :
  0 < maxPageBuffer ->
  Z.of_nat (length (mergeAll maxPageBuffer merges [])) <= maxPageBuffer + 1.
Proof.
  intros Hmax. rewrite length_mergeAll by (cbn; lia). cbn [length]. lia.
Qed.

Lemma window_bound_plus_one_witness :
  0 < 2
  /\ Z.of_nat
       (length
          (mergeAll 2
             [(false, pageA); (true, pageB); (false, pageC); (false, pageA)]
             []))
     <= 2 + 1.
Proof.
  split; [lia|].
  apply (window_bound_plus_one 2
           [(false, pageA); (true, pageB); (false, pageC); (false, pageA)]).
  lia.
Defined.

(** The bound [maxPageBuffer + 1] is reached, and kept, from the
    [maxPageBuffer + 1]-th merge on. *)
Lemma window_bound_reached (maxPageBuffer : Z)
    (merges : list (bool * IPageProps)) :
  0 <= maxPageBuffer ->
  maxPageBuffer + 1 <= Z.of_nat (length merges) ->
  Z.of_nat (length (mergeAll maxPageBuffer merges [])) = maxPageBuffer + 1.
Proof.
  intros Hmax Hlen. rewrite length_mergeAll by (cbn; lia). cbn [length]. lia.
Qed.

(** The same bound along every run of either component from its mount. *)
Lemma window_bound_main_run propsSettings viewportHeight nextBufferPx events :
  let w := Main.mount propsSettings viewportHeight nextBufferPx in
  (length (Main.pages (Main.state (Main.run w events)))
   <= Z.to_nat (Main.maxPageBuffer (Main.effectiveSettings propsSettings)) + 1
  )%nat.
Proof.
  intros w.
  destruct (mount_window propsSettings viewportHeight nextBufferPx)
    as [Hpages Hsettings].
  fold w in Hpages, Hsettings. rewrite <- Hsettings.
  apply run_window_bound. rewrite Hpages. cbn. lia.
Qed.

Lemma window_bound_legacy_run propsSettings agent previousPx nextPx events :
  let w := Legacy.mount propsSettings agent previousPx nextPx in
  (length (Legacy.pages (Legacy.state (Legacy.run w events)))
   <= Z.to_nat (Legacy.maxPageBuffer (Legacy.effectiveSettings propsSettings))
      + 1)%nat.
Proof.
  intros w.
  assert (Hw : Legacy.pages (Legacy.state w) = []
               /\ Legacy.settings (Legacy.state w)
                  = Legacy.effectiveSettings propsSettings).
  { unfold w, Legacy.mount, Legacy.setup. cbn.
    destruct (negb _); cbn; auto. }
  destruct Hw as [Hpages Hsettings]. rewrite <- Hsettings.
  apply legacy_run_window_bound. rewrite Hpages. cbn. lia.
Qed.

(** C2, as stated, fails: with [maxPageBuffer = 2] and window [A, B],
    appending C gives [A, B, C]; it does not give [B, C], and A stays. *)
Lemma eviction_counterexample :
  mergePage false pageC [pageA; pageB] 2 <> [pageB; pageC]
  /\ pageA ∈ mergePage false pageC [pageA; pageB] 2.
Proof.
  split.
  - vm_compute. discriminate.
  - vm_compute. apply list_elem_of_here.
Qed.

(** C2 (amended): a window of length at most [maxPageBuffer] keeps all its
    pages on a merge (with [maxPageBuffer = 2] and window [A, B], appending C
    yields [A, B, C]); appending to a window whose length equals
    [maxPageBuffer + 1] evicts exactly the first page, and prepending to such
    a window evicts exactly the last page. *)
Theorem eviction_at_capacity_plus_one (page : IPageProps)
    (pages : list IPageProps) (maxPageBuffer : Z) :
  (Z.of_nat (length pages) <= maxPageBuffer ->
   mergePage false page pages maxPageBuffer = pages ++ [page]
   /\ mergePage true page pages maxPageBuffer = page :: pages)
  /\ (Z.of_nat (length pages) = maxPageBuffer + 1 ->
      (forall first rest,
         pages = first :: rest ->
         mergePage false page pages maxPageBuffer = rest ++ [page])
      /\ (forall front last,
            pages = front ++ [last] ->
            mergePage true page pages maxPageBuffer = page :: front)).
Proof.
  split; [apply mergePage_keeps_all|].
  intros Hlen.
  destruct (mergePage_evicts_far_end page pages maxPageBuffer Hlen)
    as [Happend Hprepend].
  rewrite Happend, Hprepend. split.
  - intros first rest ->. reflexivity.
  - intros front last ->. now rewrite removelast_last.
Qed.

Lemma eviction_at_capacity_plus_one_witness :
  mergePage false pageC [pageA; pageB] 2 = [pageA; pageB; pageC]
  /\ mergePage false pageC [pageA; pageB; pageA] 2 = [pageB; pageA; pageC]
  /\ mergePage true pageC [pageA; pageB; pageA] 2 = [pageC; pageA; pageB].
Proof.
  split; [|split].
  - apply (eviction_at_capacity_plus_one pageC [pageA; pageB] 2).
    vm_compute. discriminate.
  - apply (proj1 (proj2 (eviction_at_capacity_plus_one pageC
                           [pageA; pageB; pageA] 2) eq_refl)
             pageA [pageB; pageA] eq_refl).
  - apply (proj2 (proj2 (eviction_at_capacity_plus_one pageC
                           [pageA; pageB; pageA] 2) eq_refl)
             [pageA; pageB] pageA eq_refl).
Defined.

(** * Identifiers *)

(** C8, as stated, fails: two triggers of the trailing sentinel on the freshly
    mounted list issue two calls [getPageAfter(undefined)]; a host answering
    both with the same page gets that page mounted twice. *)
Lemma no_duplicates_counterexample :
  let w :=
    Main.run (Main.mount None 600 600)
      [Main.Intersection false 1; Main.Intersection false 1;
       Main.Settled 0 (Some pageA); Main.Settled 0 (Some pageA)] in
  Main.pages (Main.state w) = [pageA; pageA]
  /\ ~ NoDup (pageIds (Main.pages (Main.state w))).
Proof.
  split; [reflexivity|].
  vm_compute. intros H. apply NoDup_cons in H as [Hin _].
  apply Hin, list_elem_of_here.
Qed.

(** C8 (amended): [addPage] does not compare identifiers; in every window
    reached by prepend/append merges from the empty window the page
    identifiers are pairwise distinct provided each page merged carries an
    identifier that is not in the window at the moment it is merged. *)
Theorem no_duplicates_if_fresh_at_merge (maxPageBuffer : Z)
    (merges : list (bool * IPageProps)) :
  freshAtMerge maxPageBuffer [] merges ->
  NoDup (pageIds (mergeAll maxPageBuffer merges [])).
Proof.
  assert (Hgen : forall pages,
             NoDup (pageIds pages) ->
             freshAtMerge maxPageBuffer pages merges ->
             NoDup (pageIds (mergeAll maxPageBuffer merges pages))).
  { induction merges as [|[d p] merges IH]; intros pages Hnd Hfresh.
    - exact Hnd.
    - destruct Hfresh as [Hp Hrest]. cbn [fst snd] in Hp, Hrest.
      change (mergeAll maxPageBuffer ((d, p) :: merges) pages)
        with (mergeAll maxPageBuffer merges
                (mergePage d p pages maxPageBuffer)).
      apply IH; [|exact Hrest].
      now apply NoDup_pageIds_mergePage. }
  apply Hgen. constructor.
Qed.

Lemma no_duplicates_if_fresh_at_merge_witness :
  freshAtMerge 1 []
    [(false, pageA); (false, pageB); (false, pageC); (true, pageA)]
  /\ NoDup
       (pageIds
          (mergeAll 1
             [(false, pageA); (false, pageB); (false, pageC); (true, pageA)]
             [])).
Proof.
  assert (H : freshAtMerge 1 []
                [(false, pageA); (false, pageB); (false, pageC);
                 (true, pageA)]).
  { cbn. repeat split; apply (bool_decide_unpack _); vm_compute; exact I. }
  split; [exact H|].
  apply (no_duplicates_if_fresh_at_merge 1
           [(false, pageA); (false, pageB); (false, pageC); (true, pageA)] H).
Defined.

(** * Host calls issued by sentinel triggers *)

(** C3, as stated, fails: two triggers of the leading sentinel before anything
    has settled make two calls of [getPageBefore], both still outstanding. *)
Lemma one_in_flight_counterexample :
  let w :=
    Main.run (Main.mount None 600 600)
      [Main.Intersection true (1 # 2); Main.Intersection true (1 # 2)] in
  callsFor true (Main.fetchLog w) = 2%nat
  /\ callsFor true (Main.fetchLog w) <> 1%nat
  /\ Main.pending w = [mkCall true None; mkCall true None].
Proof. split; [reflexivity|]. split; [discriminate|reflexivity]. Qed.

(** C3 (amended): neither variant records that a request is in flight.  Every
    sentinel trigger whose ratio is above the variant's threshold, with paging
    enabled (main) or debug off (legacy), calls the host once; two such
    triggers for the same direction before the first call settles make exactly
    two host calls for that direction, both outstanding. *)
Theorem two_triggers_two_fetches :
  (forall (w : Main.World) (target : bool) (ratio1 ratio2 : Q),
     ratioAbove ratio1 0 = true ->
     ratioAbove ratio2 0 = true ->
     Main.isPagingEnabled (Main.settings (Main.state w)) = true ->
     let w' :=
       Main.run w [Main.Intersection target ratio1;
                   Main.Intersection target ratio2] in
     callsFor target (Main.fetchLog w')
     = (callsFor target (Main.fetchLog w) + 2)%nat
     /\ length (Main.pending w') = (length (Main.pending w) + 2)%nat)
  /\ (forall (w : Legacy.World) (target : bool) (ratio1 ratio2 : Q),
        ratioAbove ratio1 (5 # 100) = true ->
        ratioAbove ratio2 (5 # 100) = true ->
        Legacy.debug (Legacy.settings (Legacy.state w)) = false ->
        let w' :=
          Legacy.run w [Legacy.Intersection target ratio1;
                        Legacy.Intersection target ratio2] in
        callsFor target (Legacy.fetchLog w')
        = (callsFor target (Legacy.fetchLog w) + 2)%nat
        /\ length (Legacy.pending w') = (length (Legacy.pending w) + 2)%nat).
Proof.
  split.
  - intros w target ratio1 ratio2 H1 H2 Hp. cbn.
    rewrite (handleIntersection_calls_host target ratio1 w H1 Hp).
    destruct (addPage_call_log target w) as (Hlog1 & Hpend1 & Hst1 & _).
    rewrite handleIntersection_calls_host;
      [|exact H2|now rewrite Hst1].
    destruct (addPage_call_log target (Main.addPage_call target w))
      as (Hlog2 & Hpend2 & _).
    rewrite Hlog2, Hpend2, Hlog1, Hpend1. split; lia.
  - intros w target ratio1 ratio2 H1 H2 Hd. cbn.
    destruct (legacy_handleIntersection_calls_host target ratio1 w H1 Hd)
      as (Hlog1 & Hpend1 & Hst1 & _).
    assert (Hd1 : Legacy.debug
                    (Legacy.settings
                       (Legacy.state
                          (Legacy.handleIntersection target ratio1 w)))
                  = false) by now rewrite Hst1.
    destruct (legacy_handleIntersection_calls_host target ratio2 _ H2 Hd1)
      as (Hlog2 & Hpend2 & _).
    rewrite Hlog2, Hpend2, Hlog1, Hpend1.
    rewrite !callsFor_snoc.
    destruct target; cbn [callBefore];
      rewrite !bool_decide_eq_true_2 by reflexivity; split; lia.
Qed.

Lemma two_triggers_two_fetches_witness :
  (let w' :=
     Main.run (Main.mount None 600 600)
       [Main.Intersection true (1 # 2); Main.Intersection true (3 # 4)] in
   callsFor true (Main.fetchLog w') = 2%nat
   /\ length (Main.pending w') = 2%nat)
  /\ (let w' :=
        Legacy.run (Legacy.mount None "Mozilla/5.0 Firefox/60.0" 300 300)
          [Legacy.Intersection false (1 # 10);
           Legacy.Intersection false (3 # 10)] in
      callsFor false (Legacy.fetchLog w') = 2%nat
      /\ length (Legacy.pending w') = 2%nat).
Proof.
  split.
  - apply (proj1 two_triggers_two_fetches (Main.mount None 600 600) true
             (1 # 2) (3 # 4)); reflexivity.
  - apply (proj2 two_triggers_two_fetches
             (Legacy.mount None "Mozilla/5.0 Firefox/60.0" 300 300) false
             (1 # 10) (3 # 10)); reflexivity.
Defined.

(** C4, as stated, fails: after [getPageBefore] has resolved with [undefined],
    the next trigger of the leading sentinel calls [getPageBefore] again. *)
Lemma exhaustion_sticky_counterexample :
  let exhausted :=
    Main.run (Main.mount None 600 600)
      [Main.Intersection true 1; Main.Settled 0 None] in
  let later := Main.step exhausted (Main.Intersection true 1) in
  callsFor true (Main.fetchLog exhausted) = 1%nat
  /\ callsFor true (Main.fetchLog later) = 2%nat
  /\ Main.pending later = [mkCall true None].
Proof. repeat split. Qed.

(** C4 (amended): an absence result is not recorded anywhere.  When
    [getPageBefore]/[getPageAfter] resolves with [undefined] the component
    state is as before the call, and each later sentinel trigger for that
    direction (ratio above the threshold, paging enabled in the main variant,
    debug off in the legacy one) calls the host once more. *)
Theorem exhaustion_not_recorded :
  (forall (w : Main.World) (k : nat) (call : FetchCall) (ratio : Q),
     Main.pending w !! k = Some call ->
     ratioAbove ratio 0 = true ->
     Main.isPagingEnabled (Main.settings (Main.state w)) = true ->
     let exhausted := Main.step w (Main.Settled k None) in
     let later :=
       Main.step exhausted (Main.Intersection (callBefore call) ratio) in
     Main.state exhausted = Main.state w
     /\ callsFor (callBefore call) (Main.fetchLog later)
        = S (callsFor (callBefore call) (Main.fetchLog exhausted)))
  /\ (forall (w : Legacy.World) (k : nat) (call : FetchCall) (ratio : Q),
        Legacy.pending w !! k = Some call ->
        ratioAbove ratio (5 # 100) = true ->
        Legacy.debug (Legacy.settings (Legacy.state w)) = false ->
        let exhausted := Legacy.step w (Legacy.Settled k None) in
        let later :=
          Legacy.step exhausted
            (Legacy.Intersection (callBefore call) ratio) in
        Legacy.state exhausted = Legacy.state w
        /\ callsFor (callBefore call) (Legacy.fetchLog later)
           = S (callsFor (callBefore call) (Legacy.fetchLog exhausted))).
Proof.
  split.
  - intros w k call ratio Hk Hr Hp. cbn. rewrite Hk. cbn.
    split; [reflexivity|].
    rewrite handleIntersection_calls_host; [|exact Hr|exact Hp].
    apply addPage_call_log.
  - intros w k call ratio Hk Hr Hd. cbn. rewrite Hk. cbn.
    split; [reflexivity|].
    match goal with
    | |- context [Legacy.handleIntersection ?t ?r ?w0] =>
        destruct (legacy_handleIntersection_calls_host t r w0 Hr Hd)
          as (Hlog & _)
    end.
    rewrite Hlog, callsFor_snoc.
    destruct (callBefore call); cbn [callBefore];
      rewrite bool_decide_eq_true_2 by reflexivity; cbn; lia.
Qed.

Lemma exhaustion_not_recorded_witness :
  (let w :=
     Main.run (Main.mount None 600 600) [Main.Intersection true 1] in
   let exhausted := Main.step w (Main.Settled 0 None) in
   let later := Main.step exhausted (Main.Intersection true (1 # 3)) in
   Main.state exhausted = Main.state w
   /\ callsFor true (Main.fetchLog later)
      = S (callsFor true (Main.fetchLog exhausted)))
  /\ (let w :=
        Legacy.run (Legacy.mount None "Mozilla/5.0 Firefox/60.0" 300 300)
          [Legacy.Intersection false 1] in
      let exhausted := Legacy.step w (Legacy.Settled 0 None) in
      let later := Legacy.step exhausted (Legacy.Intersection false (1 # 3)) in
      Legacy.state exhausted = Legacy.state w
      /\ callsFor false (Legacy.fetchLog later)
         = S (callsFor false (Legacy.fetchLog exhausted))).
Proof.
  split.
  - apply (proj1 exhaustion_not_recorded
             (Main.run (Main.mount None 600 600) [Main.Intersection true 1])
             0%nat (mkCall true None) (1 # 3)); reflexivity.
  - apply (proj2 exhaustion_not_recorded
             (Legacy.run
                (Legacy.mount None "Mozilla/5.0 Firefox/60.0" 300 300)
                [Legacy.Intersection false 1])
             0%nat (mkCall false None) (1 # 3)); reflexivity.
Defined.

(** C5: for every window and every direction, when the host resolves with
    [undefined], [addPage] returns without any mutation: the pages window and
    the rest of the component (state, scroll offset, runway offset, scroll
    flags) are exactly as they were, in both variants. *)
Theorem undefined_result_changes_nothing :
  (forall (w : Main.World) (isScrollingUp : bool),
     Main.addPage_resume isScrollingUp None w = w)
  /\ (forall (w : Main.World) (k : nat),
        let w' := Main.step w (Main.Settled k None) in
        Main.pages (Main.state w') = Main.pages (Main.state w)
        /\ Main.state w' = Main.state w
        /\ Main.scrollTop w' = Main.scrollTop w
        /\ Main.runwayY w' = Main.runwayY w
        /\ Main.fetchLog w' = Main.fetchLog w)
  /\ (forall (w : Legacy.World) (isScrollingUp : bool),
        Legacy.addPage_resume isScrollingUp None w = w)
  /\ (forall (w : Legacy.World) (k : nat),
        let w' := Legacy.step w (Legacy.Settled k None) in
        Legacy.pages (Legacy.state w') = Legacy.pages (Legacy.state w)
        /\ Legacy.state w' = Legacy.state w
        /\ Legacy.scrollStatus w' = Legacy.scrollStatus w
        /\ Legacy.runwayY w' = Legacy.runwayY w
        /\ Legacy.fetchLog w' = Legacy.fetchLog w).
Proof.
  repeat split; cbn;
    match goal with
    | |- context [?p !! ?k] => destruct (p !! k); reflexivity
    end.
Qed.

(** * Scroll compensation *)

(** What [adjustScrollTop] does to the offset on a merge of the main variant:
    it is driven by [isScrollingUp] of the state before the merge. *)
Lemma main_merge_compensation (w : Main.World) (isScrollingUp : bool)
    (page : IPageProps) :
  Main.scrollTop (Main.addPage_resume isScrollingUp (Some page) w)
  = Main.scrollTop w
    + (if Main.isScrollingUp (Main.state w)
       then match mergePage isScrollingUp page (Main.pages (Main.state w))
                    (Main.maxPageBuffer (Main.settings (Main.state w))) with
            | first :: _ => offsetHeight first
            | [] => Main.nextBufferPx w
            end
       else 0).
Proof.
  rewrite scrollTop_addPage_resume.
  destruct (Main.isScrollingUp (Main.state w)); lia.
Qed.

(** Two prepends in a row: the second one is compensated by the height of the
    page it inserts. *)
Lemma main_prepend_after_prepend (w : Main.World) (page : IPageProps) :
  Main.isScrollingUp (Main.state w) = true ->
  Main.scrollTop (Main.addPage_resume true (Some page) w)
  = Main.scrollTop w + offsetHeight page.
Proof.
  intros Hup. rewrite main_merge_compensation, Hup. reflexivity.
Qed.

(** C6 on the code: on the list mounted with the default settings and
    scrolled to offset 40, the first merge is a prepend of a page of height
    100 with no eviction, and the scroll offset stays 40; the claim asks for
    140.  [componentDidUpdate] passes the previous state's [isScrollingUp]
    (false here) to [adjustScrollTop]. *)
Theorem first_prepend_not_compensated :
  let before :=
    Main.run (Main.mount None 600 600)
      [Main.NativeScroll 40; Main.Intersection true 1] in
  let after := Main.step before (Main.Settled 0 (Some pageA)) in
  Main.pages (Main.state before) = []
  /\ Main.pages (Main.state after) = [pageA]
  /\ offsetHeight pageA = 100
  /\ Main.scrollTop before = 40
  /\ Main.scrollTop after = 40.
Proof. repeat split. Qed.

(** C7 on the code: after a prepend of page A (height 100), an append of page
    B moves the scroll offset of the main variant from 40 to 140; the claim
    asks for no change on an append.  The legacy variant leaves its runway
    offset alone on every append ([legacy_append_keeps_runwayY]). *)
Theorem append_after_prepend_compensated :
  let before :=
    Main.run (Main.mount None 600 600)
      [Main.NativeScroll 40; Main.Intersection true 1;
       Main.Settled 0 (Some pageA); Main.Intersection false 1] in
  let after := Main.step before (Main.Settled 0 (Some pageB)) in
  Main.pages (Main.state before) = [pageA]
  /\ Main.pages (Main.state after) = [pageA; pageB]
  /\ Main.scrollTop before = 40
  /\ Main.scrollTop after = 140.
Proof. repeat split. Qed.

(** * Settings *)

(** C9, as stated, fails for the legacy variant: with no settings supplied its
    effective [maxPageBuffer] is 10, not 15. *)
Lemma settings_defaults_counterexample :
  let w := Legacy.mount (Some (Legacy.mkPartial None None None)) "" 0 0 in
  Legacy.maxPageBuffer (Legacy.settings (Legacy.state w)) = 10
  /\ Legacy.maxPageBuffer (Legacy.settings (Legacy.state w)) <> 15.
Proof. split; [reflexivity|discriminate]. Qed.

Lemma spread_lookup (base over : gmap string JsValue) (key : string) :
  SettingsObject.spread base over !! key
  = match over !! key with
    | Some value => Some value
    | None => base !! key
    end.
Proof.
  unfold SettingsObject.spread. rewrite lookup_union.
  destruct (over !! key), (base !! key); reflexivity.
Qed.

(** The typed spread of [Main] is the spread of objects, on objects whose
    values are all defined. *)
Lemma main_spread_typed (base : Main.IVirtualListSettings)
    (over : Main.PartialSettings) :
  SettingsObject.ofMainSettings (Main.spread base over)
  = SettingsObject.spread (SettingsObject.ofMainSettings base)
      (SettingsObject.ofMainPartial over).
Proof.
  apply map_eq. intros key. rewrite spread_lookup.
  destruct base as [sbu mpb ipe dbg], over as [[a|] [b|] [c|] [d|]];
    unfold SettingsObject.ofMainSettings, SettingsObject.ofMainPartial,
      SettingsObject.property, Main.spread; cbn;
    repeat (rewrite lookup_union || rewrite lookup_insert
            || rewrite lookup_singleton || rewrite lookup_empty);
    repeat case_decide; subst; try discriminate; reflexivity.
Qed.

Lemma legacy_spread_typed (base : Legacy.IVirtualListSettings)
    (over : Legacy.PartialSettings) :
  SettingsObject.ofLegacySettings (Legacy.spread base over)
  = SettingsObject.spread (SettingsObject.ofLegacySettings base)
      (SettingsObject.ofLegacyPartial over).
Proof.
  apply map_eq. intros key. rewrite spread_lookup.
  destruct base as [sbu mpb dbg], over as [[a|] [b|] [d|]];
    unfold SettingsObject.ofLegacySettings, SettingsObject.ofLegacyPartial,
      SettingsObject.property, Legacy.spread; cbn;
    repeat (rewrite lookup_union || rewrite lookup_insert
            || rewrite lookup_singleton || rewrite lookup_empty);
    repeat case_decide; subst; try discriminate; reflexivity.
Qed.

(** C9 (amended): for every partial settings object supplied by the host,
    every field being optional, the effective settings are the variant's
    defaults overridden field by field by the supplied values (a field
    supplied as [undefined] included): the defaults are startBottomUp=false,
    maxPageBuffer=15, isPagingEnabled=true, debug=false in the main variant,
    and startBottomUp=false, maxPageBuffer=10, debug=false (there is no
    isPagingEnabled) in the legacy variant.  On supplied objects whose values
    are all defined these are the settings the components of [Main] and
    [Legacy] start with. *)
Theorem effective_settings_by_variant :
  (forall (supplied : gmap string JsValue) (key : string),
     SettingsObject.constructorSettings SettingsObject.mainDefaultSettings
       (Some supplied) !! key
     = match supplied !! key with
       | Some value => Some value
       | None => SettingsObject.mainDefaultSettings !! key
       end)
  /\ SettingsObject.constructorSettings SettingsObject.mainDefaultSettings
       None
     = SettingsObject.ofMainSettings (Main.mkSettings false 15 true false)
  /\ (forall (supplied : gmap string JsValue) (key : string),
        SettingsObject.constructorSettings
          SettingsObject.legacyDefaultSettings (Some supplied) !! key
        = match supplied !! key with
          | Some value => Some value
          | None => SettingsObject.legacyDefaultSettings !! key
          end)
  /\ SettingsObject.constructorSettings SettingsObject.legacyDefaultSettings
       None
     = SettingsObject.ofLegacySettings (Legacy.mkSettings false 10 false)
  /\ SettingsObject.legacyDefaultSettings !! "isPagingEnabled" = None
  /\ (forall over : Main.PartialSettings,
        SettingsObject.ofMainSettings
          (Main.settings (Main.initialState (Some over)))
        = SettingsObject.constructorSettings
            SettingsObject.mainDefaultSettings
            (Some (SettingsObject.ofMainPartial over)))
  /\ (forall (over : Legacy.PartialSettings) (agent : string)
             (previousPx nextPx : Z),
        SettingsObject.ofLegacySettings
          (Legacy.settings
             (Legacy.state (Legacy.mount (Some over) agent previousPx nextPx)))
        = SettingsObject.constructorSettings
            SettingsObject.legacyDefaultSettings
            (Some (SettingsObject.ofLegacyPartial over))).
Proof.
  split; [intros; apply spread_lookup|].
  split; [reflexivity|].
  split; [intros; apply spread_lookup|].
  split; [reflexivity|].
  split; [reflexivity|].
  split.
  - intros over. cbn [Main.initialState Main.settings Main.effectiveSettings
                      SettingsObject.constructorSettings].
    apply (main_spread_typed Main.defaultSettings over).
  - intros over agent previousPx nextPx.
    assert (Hs : Legacy.settings
                   (Legacy.state
                      (Legacy.mount (Some over) agent previousPx nextPx))
                 = Legacy.spread Legacy.defaultSettings over).
    { unfold Legacy.mount, Legacy.setup. cbn. destruct (negb _); reflexivity. }
    rewrite Hs. apply (legacy_spread_typed Legacy.defaultSettings over).
Qed.

(** A key supplied as [undefined] replaces the default: the effective
    [maxPageBuffer] is then [undefined], not 15. *)
Example supplied_undefined_overrides_default :
  SettingsObject.constructorSettings SettingsObject.mainDefaultSettings
    (Some {[ "maxPageBuffer" := JsUndefined ]}) !! "maxPageBuffer"
  = Some JsUndefined.
Proof. reflexivity. Qed.

(** * Wheel input of the legacy variant *)

Lemma getDelta_unknown_agent (agent : string) (deltaY : Z) :
  testIgnoreCase "chrome" agent = false ->
  testIgnoreCase "firefox" agent = false ->
  testIgnoreCase "safari" agent = false ->
  Legacy.getDelta agent deltaY = 0.
Proof.
  intros Hc Hf Hs. unfold Legacy.getDelta. now rewrite Hc, Hf, Hs.
Qed.

(** C10: in the legacy variant, for every wheel event delivered on a user
    agent matching none of chrome, firefox and safari, [getDelta] returns 0,
    and [onWheel] leaves the accumulated runway offset [runwayY] (indeed the
    whole component) exactly unchanged. *)
Theorem wheel_on_unknown_agent (w : Legacy.World) (deltaY : Z) :
  testIgnoreCase "chrome" (Legacy.userAgent w) = false ->
  testIgnoreCase "firefox" (Legacy.userAgent w) = false ->
  testIgnoreCase "safari" (Legacy.userAgent w) = false ->
  Legacy.getDelta (Legacy.userAgent w) deltaY = 0
  /\ Legacy.runwayY (Legacy.onWheel deltaY w) = Legacy.runwayY w
  /\ Legacy.onWheel deltaY w = w.
Proof.
  intros Hc Hf Hs.
  pose proof (getDelta_unknown_agent _ deltaY Hc Hf Hs) as Hdelta.
  assert (Hw : Legacy.onWheel deltaY w = w).
  { unfold Legacy.onWheel. rewrite Hdelta.
    destruct (_ || _); [reflexivity|].
    unfold Legacy.slideRunwayInPx. rewrite Z.add_0_r. now destruct w. }
  rewrite Hw. auto.
Qed.

Lemma wheel_on_unknown_agent_witness :
  let w :=
    Legacy.mount None
      "Mozilla/5.0 (Windows NT 10.0; Trident/7.0; rv:11.0) like Gecko"
      300 300 in
  Legacy.getDelta (Legacy.userAgent w) 7 = 0
  /\ Legacy.runwayY (Legacy.onWheel 7 w) = Legacy.runwayY w
  /\ Legacy.onWheel 7 w = w.
Proof.
  apply (wheel_on_unknown_agent
           (Legacy.mount None
              "Mozilla/5.0 (Windows NT 10.0; Trident/7.0; rv:11.0) like Gecko"
              300 300) 7); reflexivity.
Defined.

(** On a recognised user agent the wheel does move the runway. *)
Example wheel_on_firefox :
  Legacy.runwayY
    (Legacy.onWheel 7 (Legacy.mount None "Mozilla/5.0 Firefox/60.0" 300 300))
  = -300 + 7 * -3.
Proof. reflexivity. Qed.

(** * Further properties of the window update *)

(** X1: scrolling down only.  After the pages [ps] have been appended to the
    empty window, the window holds the last [maxPageBuffer + 1] of them (all
    of them when there are fewer), in the order they arrived; a negative
    [maxPageBuffer] counts as 0. *)
Theorem appends_keep_most_recent (maxPageBuffer : Z)
    (ps : list IPageProps) :
  mergeAll maxPageBuffer (appends ps) []
  = drop (length ps - (Z.to_nat maxPageBuffer + 1)) ps.
Proof.
  induction ps as [|p ps IH] using rev_ind; [reflexivity|].
  unfold appends in *. rewrite fmap_snoc, mergeAll_snoc, IH.
  unfold mergePage, Lodash.takeRight.
  rewrite drop_drop, length_drop, length_app. cbn [length].
  rewrite drop_app_le by lia. f_equal. f_equal. lia.
Qed.

(** X2: scrolling up only.  After the pages [ps] have been prepended to the
    empty window, the window holds the last [maxPageBuffer + 1] of them (all
    of them when there are fewer), the most recent first; a negative
    [maxPageBuffer] counts as 0. *)
Theorem prepends_keep_most_recent (maxPageBuffer : Z)
    (ps : list IPageProps) :
  mergeAll maxPageBuffer (prepends ps) []
  = take (Z.to_nat maxPageBuffer + 1) (reverse ps).
Proof.
  induction ps as [|p ps IH] using rev_ind;
    [cbn; now rewrite take_nil|].
  unfold prepends in *. rewrite fmap_snoc, mergeAll_snoc, IH.
  unfold mergePage, Lodash.take.
  rewrite take_take, reverse_snoc.
  replace (Z.to_nat maxPageBuffer + 1)%nat
    with (S (Z.to_nat maxPageBuffer)) by lia.
  cbn [take]. f_equal. f_equal. lia.
Qed.

(** X3: below capacity the two ends do not interfere.  When the window holds
    fewer than [maxPageBuffer] pages, a prepend of [p1] and an append of [p2]
    give the same window [p1, ...pages, p2] in either order. *)
Theorem opposite_merges_commute (p1 p2 : IPageProps)
    (pages : list IPageProps) (maxPageBuffer : Z) :
  Z.of_nat (length pages) < maxPageBuffer ->
  mergePage false p2 (mergePage true p1 pages maxPageBuffer) maxPageBuffer
  = p1 :: pages ++ [p2]
  /\ mergePage true p1 (mergePage false p2 pages maxPageBuffer) maxPageBuffer
     = p1 :: pages ++ [p2].
Proof.
  intros Hlen.
  destruct (mergePage_keeps_all p1 pages maxPageBuffer) as [_ Hpre]; [lia|].
  destruct (mergePage_keeps_all p2 pages maxPageBuffer) as [Happ _]; [lia|].
  rewrite Hpre, Happ. split.
  - apply mergePage_keeps_all. cbn [length]. lia.
  - apply mergePage_keeps_all. rewrite length_app. cbn [length]. lia.
Qed.

Lemma opposite_merges_commute_witness :
  mergePage false pageC (mergePage true pageB [pageA] 2) 2
  = [pageB; pageA; pageC]
  /\ mergePage true pageB (mergePage false pageC [pageA] 2) 2
     = [pageB; pageA; pageC].
Proof. apply (opposite_merges_commute pageB pageC [pageA] 2). cbn. lia. Defined.

(** X4: at capacity the later merge undoes the earlier one.  When the window
    holds exactly [maxPageBuffer] pages, a prepend followed by an append
    evicts the page just prepended, and an append followed by a prepend evicts
    the page just appended. *)
Theorem opposite_merge_evicts_newcomer (p1 p2 : IPageProps)
    (pages : list IPageProps) (maxPageBuffer : Z) :
  Z.of_nat (length pages) = maxPageBuffer ->
  mergePage false p2 (mergePage true p1 pages maxPageBuffer) maxPageBuffer
  = pages ++ [p2]
  /\ mergePage true p1 (mergePage false p2 pages maxPageBuffer) maxPageBuffer
     = p1 :: pages.
Proof.
  intros Hlen.
  destruct (mergePage_keeps_all p1 pages maxPageBuffer) as [_ Hpre]; [lia|].
  destruct (mergePage_keeps_all p2 pages maxPageBuffer) as [Happ _]; [lia|].
  rewrite Hpre, Happ. split.
  - destruct (mergePage_evicts_far_end p2 (p1 :: pages) maxPageBuffer)
      as [H _]; [cbn [length]; lia|exact H].
  - destruct (mergePage_evicts_far_end p1 (pages ++ [p2]) maxPageBuffer)
      as [_ H]; [rewrite length_app; cbn [length]; lia|].
    rewrite H. now rewrite removelast_last.
Qed.

Lemma opposite_merge_evicts_newcomer_witness :
  mergePage false pageC (mergePage true pageB [pageA; pageA] 2) 2
  = [pageA; pageA; pageC]
  /\ mergePage true pageB (mergePage false pageC [pageA; pageA] 2) 2
     = [pageB; pageA; pageA].
Proof.
  apply (opposite_merge_evicts_newcomer pageB pageC [pageA; pageA] 2).
  reflexivity.
Defined.

(** X5: with [maxPageBuffer] zero or negative nothing of the old window
    survives a merge: the window becomes the new page alone. *)
Theorem nonpositive_capacity_keeps_newcomer_only (isScrollingUp : bool)
    (page : IPageProps) (pages : list IPageProps) (maxPageBuffer : Z) :
  maxPageBuffer <= 0 ->
  mergePage isScrollingUp page pages maxPageBuffer = [page].
Proof.
  intros Hmax. unfold mergePage, Lodash.take, Lodash.takeRight.
  replace (Z.to_nat maxPageBuffer) with 0%nat by lia.
  destruct isScrollingUp; [reflexivity|].
  rewrite Nat.sub_0_r, drop_all. reflexivity.
Qed.

Lemma nonpositive_capacity_keeps_newcomer_only_witness :
  mergePage true pageC [pageA; pageB] (-3) = [pageC].
Proof.
  apply (nonpositive_capacity_keeps_newcomer_only true pageC [pageA; pageB]
           (-3)).
  lia.
Defined.

(** X6: every page of a window built by merges from the empty window is one
    of the pages that were merged: [addPage] never invents or alters a
    page. *)
Theorem window_pages_come_from_host (maxPageBuffer : Z)
    (merges : list (bool * IPageProps)) (page : IPageProps) :
  page ∈ mergeAll maxPageBuffer merges [] ->
  page ∈ (snd <$> merges).
Proof.
  induction merges as [|[d p] merges IH] using rev_ind.
  - cbn. intros H. now apply elem_of_nil in H.
  - rewrite mergeAll_snoc, fmap_snoc. cbn [snd].
    unfold mergePage, Lodash.take, Lodash.takeRight.
    intros Hin. apply elem_of_app.
    destruct d.
    + apply elem_of_cons in Hin as [->|Hin].
      * right. apply list_elem_of_here.
      * left. apply IH.
        eapply elem_of_sublist; [exact Hin|apply sublist_take].
    + apply elem_of_app in Hin as [Hin|Hin].
      * left. apply IH.
        eapply elem_of_sublist; [exact Hin|apply sublist_drop].
      * right. exact Hin.
Qed.

Lemma window_pages_come_from_host_witness :
  pageB ∈ (snd <$> [(false, pageA); (true, pageB)]).
Proof.
  apply (window_pages_come_from_host 5 [(false, pageA); (true, pageB)] pageB).
  vm_compute. apply list_elem_of_here.
Defined.

Lemma window_bound_reached_witness :
  Z.of_nat
    (length (mergeAll 1 [(false, pageA); (true, pageB); (false, pageC)] []))
  = 1 + 1.
Proof.
  apply (window_bound_reached 1
           [(false, pageA); (true, pageB); (false, pageC)]); cbn; lia.
Defined.

(** * Further properties of the main variant *)

Lemma main_step_automatic_frame (w : Main.World) (e : Main.Event) :
  mainAutomatic e = true ->
  Main.isPagingEnabled (Main.settings (Main.state w)) = false ->
  Main.settings (Main.state (Main.step w e)) = Main.settings (Main.state w)
  /\ Main.fetchLog (Main.step w e) = Main.fetchLog w.
Proof.
  intros Hauto Hoff.
  destruct e as [target ratio|k [page|]|d|setting|top];
    try discriminate Hauto; cbn [Main.step].
  - unfold Main.handleIntersection. rewrite Hoff.
    rewrite orb_true_r. auto.
  - destruct (Main.pending w !! k) as [call|]; [|auto].
    rewrite state_addPage_resume. cbn. split; [reflexivity|].
    unfold Main.addPage_resume, Main.setState, Main.adjustScrollTop.
    cbn. destruct (Main.isScrollingUp (Main.state w)); reflexivity.
  - destruct (Main.pending w !! k); auto.
  - auto.
Qed.

(** X7: while [isPagingEnabled] is off, no sentinel event, settled promise or
    native scroll makes the main variant call the host: over any run without
    manual debug actions the log of host calls stays as it was. *)
Theorem paging_disabled_no_host_calls (w : Main.World)
    (events : list Main.Event) :
  Main.isPagingEnabled (Main.settings (Main.state w)) = false ->
  forallb mainAutomatic events = true ->
  Main.fetchLog (Main.run w events) = Main.fetchLog w.
Proof.
  revert w. induction events as [|e events IH]; intros w Hoff Hauto;
    [reflexivity|].
  cbn in Hauto. apply andb_true_iff in Hauto as [He Hevents].
  destruct (main_step_automatic_frame w e He Hoff) as [Hsettings Hlog].
  cbn. fold (Main.run (Main.step w e) events).
  rewrite IH; [exact Hlog| |exact Hevents].
  now rewrite Hsettings.
Qed.

Lemma paging_disabled_no_host_calls_witness :
  Main.fetchLog
    (Main.run
       (Main.mount (Some (Main.mkPartial None None (Some false) None)) 600 600)
       [Main.Intersection true 1; Main.NativeScroll 30;
        Main.Intersection false (1 # 2)])
  = [].
Proof.
  apply (paging_disabled_no_host_calls
           (Main.mount (Some (Main.mkPartial None None (Some false) None))
              600 600)
           [Main.Intersection true 1; Main.NativeScroll 30;
            Main.Intersection false (1 # 2)]); reflexivity.
Defined.

Lemma main_run_merges_nothing (w : Main.World) (events : list Main.Event) :
  forallb mainMergesNothing events = true ->
  Main.pages (Main.state (Main.run w events)) = Main.pages (Main.state w).
Proof.
  revert w. induction events as [|e events IH]; intros w Hall;
    [reflexivity|].
  cbn [forallb] in Hall. apply andb_true_iff in Hall as [He Hall].
  unfold Main.run. cbn [foldl]. fold (Main.run (Main.step w e) events).
  rewrite IH by exact Hall.
  destruct e as [target ratio|k [page|]|d|setting|top];
    try discriminate He; cbn [Main.step].
  - unfold Main.handleIntersection. destruct (_ || _); reflexivity.
  - destruct (Main.pending w !! k); reflexivity.
  - reflexivity.
  - unfold Main.toggle. now rewrite state_setState.
  - reflexivity.
Qed.

Lemma legacy_run_merges_nothing (w : Legacy.World)
    (events : list Legacy.Event) :
  forallb legacyMergesNothing events = true ->
  Legacy.pages (Legacy.state (Legacy.run w events))
  = Legacy.pages (Legacy.state w)
  /\ Legacy.settings (Legacy.state (Legacy.run w events))
     = Legacy.settings (Legacy.state w).
Proof.
  revert w. induction events as [|e events IH]; intros w Hall; [auto|].
  cbn [forallb] in Hall. apply andb_true_iff in Hall as [He Hall].
  unfold Legacy.run. cbn [foldl]. fold (Legacy.run (Legacy.step w e) events).
  destruct (IH (Legacy.step w e) Hall) as [-> ->].
  destruct e as [target ratio|k [page|]|d|deltaY];
    try discriminate He; cbn [Legacy.step].
  - unfold Legacy.handleIntersection. cbn. destruct (_ || _); cbn; auto.
  - destruct (Legacy.pending w !! k); auto.
  - auto.
  - unfold Legacy.onWheel. destruct (_ || _); cbn; auto.
Qed.

Lemma edge_of_merged_window (isScrollingUp : bool) (page : IPageProps)
    (pages : list IPageProps) (maxPageBuffer : Z) :
  (if isScrollingUp
   then Lodash.head (mergePage isScrollingUp page pages maxPageBuffer)
   else Lodash.last (mergePage isScrollingUp page pages maxPageBuffer))
  = Some page.
Proof.
  unfold mergePage. destruct isScrollingUp; [reflexivity|].
  unfold Lodash.last. apply last_snoc.
Qed.

(** X8: the page at the edge is the cursor of the next request.  Once a host
    promise has settled with a page, a sentinel-triggered call for the same
    direction passes exactly that page to the host, as long as no other
    promise has settled with a page in between (whatever else happened:
    other sentinel events, scrolling, toggles, wheel input, promises settling
    with [undefined]); in both variants. *)
Theorem next_call_passes_merged_page :
  (forall (w : Main.World) (k : nat) (call : FetchCall) (page : IPageProps)
          (between : list Main.Event) (ratio : Q),
     Main.pending w !! k = Some call ->
     forallb mainMergesNothing between = true ->
     let merged := Main.run (Main.step w (Main.Settled k (Some page))) between in
     ratioAbove ratio 0 = true ->
     Main.isPagingEnabled (Main.settings (Main.state merged)) = true ->
     Main.fetchLog
       (Main.step merged (Main.Intersection (callBefore call) ratio))
     = Main.fetchLog merged ++ [mkCall (callBefore call) (Some page)])
  /\ (forall (w : Legacy.World) (k : nat) (call : FetchCall)
             (page : IPageProps) (between : list Legacy.Event) (ratio : Q),
        Legacy.pending w !! k = Some call ->
        forallb legacyMergesNothing between = true ->
        let merged :=
          Legacy.run (Legacy.step w (Legacy.Settled k (Some page))) between in
        ratioAbove ratio (5 # 100) = true ->
        Legacy.debug (Legacy.settings (Legacy.state w)) = false ->
        Legacy.fetchLog
          (Legacy.step merged (Legacy.Intersection (callBefore call) ratio))
        = Legacy.fetchLog merged ++ [mkCall (callBefore call) (Some page)]).
Proof.
  split.
  - intros w k call page between ratio Hk Hbetween merged Hr Hp.
    assert (Hpages : Main.pages (Main.state merged)
                     = mergePage (callBefore call) page
                         (Main.pages (Main.state w))
                         (Main.maxPageBuffer (Main.settings (Main.state w)))).
    { unfold merged. rewrite main_run_merges_nothing by exact Hbetween.
      cbn [Main.step]. rewrite Hk, state_addPage_resume. reflexivity. }
    cbn [Main.step].
    rewrite handleIntersection_calls_host by assumption.
    unfold Main.addPage_call. cbn [Main.fetchLog]. rewrite Hpages.
    f_equal. f_equal.
    pose proof (edge_of_merged_window (callBefore call) page
                  (Main.pages (Main.state w))
                  (Main.maxPageBuffer (Main.settings (Main.state w))))
      as Hedge.
    destruct (callBefore call); now rewrite Hedge.
  - intros w k call page between ratio Hk Hbetween merged Hr Hd.
    destruct (legacy_run_merges_nothing
                (Legacy.step w (Legacy.Settled k (Some page))) between
                Hbetween) as [Hpages Hsettings].
    fold merged in Hpages, Hsettings.
    cbn [Legacy.step] in Hpages, Hsettings. rewrite Hk in Hpages, Hsettings.
    rewrite legacy_state_addPage_resume in Hpages, Hsettings.
    cbn in Hpages, Hsettings.
    cbn [Legacy.step].
    destruct (legacy_handleIntersection_calls_host (callBefore call) ratio
                merged Hr) as (Hlog & _); [now rewrite Hsettings|].
    rewrite Hlog, Hpages. f_equal. f_equal.
    pose proof (edge_of_merged_window (callBefore call) page
                  (Legacy.pages (Legacy.state w))
                  (Legacy.maxPageBuffer (Legacy.settings (Legacy.state w))))
      as Hedge.
    destruct (callBefore call); now rewrite Hedge.
Qed.

Lemma next_call_passes_merged_page_witness :
  Main.fetchLog
    (Main.step
       (Main.run
          (Main.step
             (Main.run (Main.mount None 600 600)
                [Main.Intersection false 1; Main.Intersection true 1])
             (Main.Settled 0 (Some pageA)))
          [Main.NativeScroll 30; Main.Settled 0 None])
       (Main.Intersection false 1))
  = [mkCall false None; mkCall true None; mkCall false (Some pageA)]
  /\ Legacy.fetchLog
       (Legacy.step
          (Legacy.run
             (Legacy.step
                (Legacy.run
                   (Legacy.mount None "Mozilla/5.0 Firefox/60.0" 300 300)
                   [Legacy.Intersection true 1])
                (Legacy.Settled 0 (Some pageB)))
             [Legacy.Wheel 4])
          (Legacy.Intersection true 1))
     = [mkCall true None; mkCall true (Some pageB)].
Proof.
  split.
  - apply (proj1 next_call_passes_merged_page
             (Main.run (Main.mount None 600 600)
                [Main.Intersection false 1; Main.Intersection true 1])
             0%nat (mkCall false None) pageA
             [Main.NativeScroll 30; Main.Settled 0 None] 1%Q); reflexivity.
  - apply (proj2 next_call_passes_merged_page
             (Legacy.run
                (Legacy.mount None "Mozilla/5.0 Firefox/60.0" 300 300)
                [Legacy.Intersection true 1])
             0%nat (mkCall true None) pageB [Legacy.Wheel 4] 1%Q);
      reflexivity.
Defined.

(** X9: the window changes only when a host promise settles with a page.
    Sentinel events, wheel and scroll input, settings toggles, manual requests
    and promises settling with [undefined] leave the pages untouched, in both
    variants. *)
Theorem window_changes_only_on_settled_page :
  (forall (w : Main.World) (e : Main.Event),
     (forall k page, e <> Main.Settled k (Some page)) ->
     Main.pages (Main.state (Main.step w e)) = Main.pages (Main.state w))
  /\ (forall (w : Legacy.World) (e : Legacy.Event),
        (forall k page, e <> Legacy.Settled k (Some page)) ->
        Legacy.pages (Legacy.state (Legacy.step w e))
        = Legacy.pages (Legacy.state w)).
Proof.
  split.
  - intros w e Hne.
    destruct e as [target ratio|k [page|]|d|setting|top]; cbn [Main.step].
    + unfold Main.handleIntersection. destruct (_ || _); reflexivity.
    + now destruct (Hne k page).
    + destruct (Main.pending w !! k); reflexivity.
    + reflexivity.
    + unfold Main.toggle. now rewrite state_setState.
    + reflexivity.
  - intros w e Hne.
    destruct e as [target ratio|k [page|]|d|deltaY]; cbn [Legacy.step].
    + unfold Legacy.handleIntersection. cbn. destruct (_ || _); reflexivity.
    + now destruct (Hne k page).
    + destruct (Legacy.pending w !! k); reflexivity.
    + reflexivity.
    + unfold Legacy.onWheel. destruct (_ || _); reflexivity.
Qed.

Lemma window_changes_only_on_settled_page_witness :
  Main.pages
    (Main.state
       (Main.step
          (Main.run (Main.mount None 600 600)
             [Main.Intersection false 1; Main.Settled 0 (Some pageA)])
          (Main.DebugToggle Main.SDebug)))
  = [pageA]
  /\ Legacy.pages
       (Legacy.state
          (Legacy.step (Legacy.mount None "Mozilla/5.0 Firefox/60.0" 300 300)
             (Legacy.Wheel 12)))
     = [].
Proof.
  split.
  - apply (proj1 window_changes_only_on_settled_page
             (Main.run (Main.mount None 600 600)
                [Main.Intersection false 1; Main.Settled 0 (Some pageA)])
             (Main.DebugToggle Main.SDebug)).
    intros k page. discriminate.
  - apply (proj2 window_changes_only_on_settled_page
             (Legacy.mount None "Mozilla/5.0 Firefox/60.0" 300 300)
             (Legacy.Wheel 12)).
    intros k page. discriminate.
Defined.

Lemma mainPrependAll_cons (w : Main.World) (p : IPageProps)
    (ps : list IPageProps) :
  mainPrependAll w (p :: ps)
  = mainPrependAll (Main.addPage_resume true (Some p) w) ps.
Proof. reflexivity. Qed.

Lemma mainPrependAll_scrolling_up (w : Main.World) (ps : list IPageProps) :
  Main.isScrollingUp (Main.state w) = true ->
  Main.scrollTop (mainPrependAll w ps) = Main.scrollTop w + totalHeight ps.
Proof.
  revert w. induction ps as [|p ps IH]; intros w Hup.
  - cbn. lia.
  - rewrite mainPrependAll_cons.
    rewrite IH by now rewrite state_addPage_resume.
    rewrite main_prepend_after_prepend by exact Hup. cbn [totalHeight foldr].
    fold (totalHeight ps). lia.
Qed.

(** A streak of prepends, each update with an animation frame of its own
    ([Main.setState]): the scroll offset grows by the heights of all the pages
    if the state already had [isScrollingUp] set, and by the heights of all
    but the first otherwise. *)
Lemma prepend_streak_compensation (w : Main.World)
    (ps : list IPageProps) :
  Main.scrollTop (mainPrependAll w ps)
  = Main.scrollTop w
    + (if Main.isScrollingUp (Main.state w) then totalHeight ps
       else totalHeight (tail ps)).
Proof.
  destruct (Main.isScrollingUp (Main.state w)) eqn:Hup.
  - now apply mainPrependAll_scrolling_up.
  - destruct ps as [|p ps]; cbn [tail]; [cbn; lia|].
    rewrite mainPrependAll_cons.
    rewrite mainPrependAll_scrolling_up
      by now rewrite state_addPage_resume.
    rewrite main_merge_compensation, Hup. lia.
Qed.

(** X11: what mounting leaves behind in the main variant.  Both buffer
    heights of the state are the viewport height, the window is empty, no
    host call has been made, and the scroll offset is 0, except with
    [startBottomUp], where the update started by [setup] already scrolls the
    viewport by the height of the element after the leading buffer, which is
    the trailing buffer. *)
Theorem mount_outcome (propsSettings : option Main.PartialSettings)
    (viewportHeight nextBufferOffsetHeight : Z) :
  let w := Main.mount propsSettings viewportHeight nextBufferOffsetHeight in
  Main.previousBufferHeight (Main.state w) = viewportHeight
  /\ Main.nextBufferHeight (Main.state w) = viewportHeight
  /\ Main.isScrollingUp (Main.state w)
     = Main.startBottomUp (Main.effectiveSettings propsSettings)
  /\ Main.fetchLog w = []
  /\ Main.scrollTop w
     = if Main.startBottomUp (Main.effectiveSettings propsSettings)
       then nextBufferOffsetHeight else 0.
Proof.
  unfold Main.mount, Main.setup, Main.setState, Main.adjustScrollTop.
  cbn. destruct (Main.startBottomUp (Main.effectiveSettings propsSettings));
    cbn; repeat split.
Qed.

Lemma main_step_never_written (w : Main.World) (e : Main.Event) :
  Main.previousBufferHeight (Main.state (Main.step w e))
  = Main.previousBufferHeight (Main.state w)
  /\ Main.nextBufferHeight (Main.state (Main.step w e))
     = Main.nextBufferHeight (Main.state w)
  /\ Main.runwayY (Main.step w e) = Main.runwayY w
  /\ Main.nextBufferPx (Main.step w e) = Main.nextBufferPx w.
Proof.
  destruct e as [target ratio|k [page|]|d|setting|top]; cbn [Main.step].
  - unfold Main.handleIntersection. destruct (_ || _); cbn; auto.
  - destruct (Main.pending w !! k) as [call|]; [|auto].
    unfold Main.addPage_resume, Main.setState, Main.adjustScrollTop. cbn.
    destruct (Main.isScrollingUp (Main.state w)); cbn; auto.
  - destruct (Main.pending w !! k); cbn; auto.
  - cbn; auto.
  - unfold Main.toggle, Main.setState, Main.adjustScrollTop.
    destruct (Main.isScrollingUp (Main.state w)); cbn; auto.
  - cbn; auto.
Qed.

(** X12: fields the main variant never writes after mount.  Over every run
    the two buffer heights kept in the state stay equal to the viewport height
    measured at mount, and [runwayY] stays 0. *)
Theorem main_run_never_written
    (propsSettings : option Main.PartialSettings)
    (viewportHeight nextBufferOffsetHeight : Z)
    (events : list Main.Event) :
  let w :=
    Main.run (Main.mount propsSettings viewportHeight nextBufferOffsetHeight)
      events in
  Main.previousBufferHeight (Main.state w) = viewportHeight
  /\ Main.nextBufferHeight (Main.state w) = viewportHeight
  /\ Main.runwayY w = 0.
Proof.
  cbn zeta.
  assert (Hgen : forall w0,
             Main.previousBufferHeight (Main.state (Main.run w0 events))
             = Main.previousBufferHeight (Main.state w0)
             /\ Main.nextBufferHeight (Main.state (Main.run w0 events))
                = Main.nextBufferHeight (Main.state w0)
             /\ Main.runwayY (Main.run w0 events) = Main.runwayY w0).
  { induction events as [|e events IH]; intros w0; [auto|].
    cbn. fold (Main.run (Main.step w0 e) events).
    destruct (IH (Main.step w0 e)) as (H1 & H2 & H3).
    destruct (main_step_never_written w0 e) as (S1 & S2 & S3 & _).
    rewrite H1, H2, H3. auto. }
  destruct (Hgen (Main.mount propsSettings viewportHeight
                    nextBufferOffsetHeight)) as (H1 & H2 & H3).
  rewrite H1, H2, H3.
  unfold Main.mount, Main.setup, Main.setState, Main.adjustScrollTop. cbn.
  destruct (Main.startBottomUp (Main.effectiveSettings propsSettings));
    cbn; auto.
Qed.

(** Two toggles of the same setting, each update with an animation frame of
    its own ([Main.setState]). *)
Lemma toggle_twice (w : Main.World) (setting : Main.BoolSetting) :
  let w' := Main.toggle setting (Main.toggle setting w) in
  Main.state w' = Main.state w
  /\ Main.fetchLog w' = Main.fetchLog w
  /\ Main.pending w' = Main.pending w
  /\ Main.scrollTop w'
     = Main.scrollTop w
       + (if Main.isScrollingUp (Main.state w)
          then 2 * Main.afterPreviousBufferPx w else 0).
Proof.
  unfold Main.toggle, Main.setState, Main.adjustScrollTop,
    Main.afterPreviousBufferPx.
  destruct w as [[pages settings pbh nbh up] ry top nb pend log].
  destruct settings as [sbu mpb ipe dbg].
  destruct up; destruct setting; cbn; rewrite ?negb_involutive;
    repeat split; lia.
Qed.

(** * Further properties of the legacy variant *)

(** X14: [getDelta] never keeps the sign of the wheel: scrolling down
    ([deltaY > 0]) gives a delta that is negative or 0, scrolling up or not at
    all gives one that is positive or 0, whatever the user agent; and an agent
    matching chrome is scaled by -3 even when it matches safari as well. *)
Theorem getDelta_inverts_wheel (agent : string) (deltaY : Z) :
  (0 < deltaY -> Legacy.getDelta agent deltaY <= 0)
  /\ (deltaY <= 0 -> 0 <= Legacy.getDelta agent deltaY)
  /\ (testIgnoreCase "chrome" agent = true ->
      Legacy.getDelta agent deltaY = deltaY * -3).
Proof.
  unfold Legacy.getDelta.
  destruct (testIgnoreCase "chrome" agent),
    (testIgnoreCase "firefox" agent), (testIgnoreCase "safari" agent);
    repeat split; intros; try discriminate; lia.
Qed.

Lemma getDelta_inverts_wheel_witness :
  Legacy.getDelta
    "Mozilla/5.0 (X11) AppleWebKit/537.36 Chrome/70.0 Safari/537.36" 4 <= 0
  /\ 0 <= Legacy.getDelta "Mozilla/5.0 Version/17.0 Safari/605.1.15" (-4)
  /\ Legacy.getDelta
       "Mozilla/5.0 (X11) AppleWebKit/537.36 Chrome/70.0 Safari/537.36" 4
     = 4 * -3.
Proof.
  split; [|split].
  - apply (proj1 (getDelta_inverts_wheel
                    "Mozilla/5.0 (X11) AppleWebKit/537.36 Chrome/70.0 Safari/537.36"
                    4)).
    lia.
  - apply (proj1 (proj2 (getDelta_inverts_wheel
                           "Mozilla/5.0 Version/17.0 Safari/605.1.15" (-4)))).
    lia.
  - apply (proj2 (proj2 (getDelta_inverts_wheel
                           "Mozilla/5.0 (X11) AppleWebKit/537.36 Chrome/70.0 Safari/537.36"
                           4))).
    reflexivity.
Defined.

Lemma legacy_handleIntersection_frame (w : Legacy.World) (target : bool)
    (ratio : Q) :
  let w' := Legacy.handleIntersection target ratio w in
  Legacy.userAgent w' = Legacy.userAgent w
  /\ Legacy.runwayY w' = Legacy.runwayY w
  /\ Legacy.scrollStatus w'
     = {| Legacy.canScrollUp :=
            if target then negb (ratioAbove ratio (2 # 10))
            else Legacy.canScrollUp (Legacy.scrollStatus w);
          Legacy.canScrollDown :=
            if negb target then negb (ratioAbove ratio (2 # 10))
            else Legacy.canScrollDown (Legacy.scrollStatus w) |}.
Proof.
  unfold Legacy.handleIntersection. cbn.
  destruct (_ || _); cbn; auto.
Qed.

(** X15: the scroll gate.  Once a sentinel has reported a ratio above 0.2, a
    wheel event towards that sentinel (upwards or still for the leading one,
    downwards for the trailing one) does not move the runway, on any user
    agent and whether or not a page request was started. *)
Theorem paused_sentinel_blocks_wheel (w : Legacy.World) (target : bool)
    (ratio : Q) (deltaY : Z) :
  ratioAbove ratio (2 # 10) = true ->
  (if target then deltaY <= 0 else 0 < deltaY) ->
  Legacy.runwayY
    (Legacy.onWheel deltaY (Legacy.handleIntersection target ratio w))
  = Legacy.runwayY w.
Proof.
  intros Hratio Hdir.
  destruct (legacy_handleIntersection_frame w target ratio)
    as (Hagent & Hrunway & Hstatus).
  destruct (getDelta_inverts_wheel (Legacy.userAgent w) deltaY)
    as (Hdown & Hup & _).
  unfold Legacy.onWheel. rewrite Hagent, Hstatus, Hratio.
  destruct target; cbn [negb Legacy.canScrollUp Legacy.canScrollDown].
  - specialize (Hup Hdir).
    replace (0 <=? Legacy.getDelta (Legacy.userAgent w) deltaY) with true
      by (symmetry; apply Z.leb_le; exact Hup).
    cbn. exact Hrunway.
  - specialize (Hdown Hdir).
    destruct (0 <=? Legacy.getDelta (Legacy.userAgent w) deltaY) eqn:Hsign.
    + apply Z.leb_le in Hsign.
      assert (Hzero : Legacy.getDelta (Legacy.userAgent w) deltaY = 0)
        by lia.
      destruct (Legacy.canScrollUp (Legacy.scrollStatus w)); cbn;
        rewrite ?Hzero; lia.
    + rewrite !andb_true_r, orb_true_r. exact Hrunway.
Qed.

Lemma paused_sentinel_blocks_wheel_witness :
  Legacy.runwayY
    (Legacy.onWheel (-9)
       (Legacy.handleIntersection true (1 # 2)
          (Legacy.mount None "Mozilla/5.0 Firefox/60.0" 300 300)))
  = -300.
Proof.
  apply (paused_sentinel_blocks_wheel
           (Legacy.mount None "Mozilla/5.0 Firefox/60.0" 300 300)
           true (1 # 2) (-9)).
  - reflexivity.
  - cbn. lia.
Defined.

(** X16: the gate reopens.  Once a sentinel reports a ratio of at most 0.2, a
    wheel event towards it moves the runway by exactly [getDelta], whatever
    the flags were before. *)
Theorem released_sentinel_lets_wheel_through (w : Legacy.World)
    (target : bool) (ratio : Q) (deltaY : Z) :
  ratioAbove ratio (2 # 10) = false ->
  (if target then deltaY <= 0 else 0 < deltaY) ->
  Legacy.runwayY
    (Legacy.onWheel deltaY (Legacy.handleIntersection target ratio w))
  = Legacy.runwayY w + Legacy.getDelta (Legacy.userAgent w) deltaY.
Proof.
  intros Hratio Hdir.
  destruct (legacy_handleIntersection_frame w target ratio)
    as (Hagent & Hrunway & Hstatus).
  destruct (getDelta_inverts_wheel (Legacy.userAgent w) deltaY)
    as (Hdown & Hup & _).
  unfold Legacy.onWheel. rewrite Hagent, Hstatus, Hratio.
  destruct target; cbn [negb Legacy.canScrollUp Legacy.canScrollDown].
  - specialize (Hup Hdir).
    replace (0 <=? Legacy.getDelta (Legacy.userAgent w) deltaY) with true
      by (symmetry; apply Z.leb_le; exact Hup).
    cbn [negb andb orb]. rewrite andb_false_r.
    change (Legacy.runwayY (Legacy.handleIntersection true ratio w)
            + Legacy.getDelta (Legacy.userAgent w) deltaY
            = Legacy.runwayY w
              + Legacy.getDelta (Legacy.userAgent w) deltaY).
    now rewrite Hrunway.
  - specialize (Hdown Hdir).
    destruct (0 <=? Legacy.getDelta (Legacy.userAgent w) deltaY) eqn:Hsign.
    + apply Z.leb_le in Hsign.
      assert (Hzero : Legacy.getDelta (Legacy.userAgent w) deltaY = 0)
        by lia.
      rewrite Hzero.
      destruct (Legacy.canScrollUp (Legacy.scrollStatus w));
        cbn [negb andb orb].
      * change (Legacy.runwayY (Legacy.handleIntersection false ratio w) + 0
                = Legacy.runwayY w + 0).
        now rewrite Hrunway.
      * rewrite Hrunway. lia.
    + cbn [negb andb orb]. rewrite andb_false_r. cbn [orb].
      change (Legacy.runwayY (Legacy.handleIntersection false ratio w)
              + Legacy.getDelta (Legacy.userAgent w) deltaY
              = Legacy.runwayY w
                + Legacy.getDelta (Legacy.userAgent w) deltaY).
      now rewrite Hrunway.
Qed.

Lemma released_sentinel_lets_wheel_through_witness :
  Legacy.runwayY
    (Legacy.onWheel 5
       (Legacy.handleIntersection false (1 # 10)
          (Legacy.mount None "Mozilla/5.0 Firefox/60.0" 300 300)))
  = -300 + Legacy.getDelta "Mozilla/5.0 Firefox/60.0" 5.
Proof.
  apply (released_sentinel_lets_wheel_through
           (Legacy.mount None "Mozilla/5.0 Firefox/60.0" 300 300)
           false (1 # 10) 5).
  - reflexivity.
  - cbn. lia.
Defined.

(** X17: with both scroll flags set, a sequence of wheel events moves the
    runway by the sum of their deltas and changes nothing else. *)
Theorem wheel_events_accumulate (w : Legacy.World) (deltaYs : list Z) :
  Legacy.canScrollUp (Legacy.scrollStatus w) = true ->
  Legacy.canScrollDown (Legacy.scrollStatus w) = true ->
  Legacy.run w (Legacy.Wheel <$> deltaYs)
  = Legacy.slideRunwayInPx (wheelTotal (Legacy.userAgent w) deltaYs) w.
Proof.
  revert w. induction deltaYs as [|deltaY deltaYs IH]; intros w Hup Hdown.
  - cbn. unfold Legacy.slideRunwayInPx. rewrite Z.add_0_r. now destruct w.
  - rewrite fmap_cons. unfold Legacy.run. cbn [foldl Legacy.step].
    fold (Legacy.run (Legacy.onWheel deltaY w) (Legacy.Wheel <$> deltaYs)).
    assert (Hstep : Legacy.onWheel deltaY w
                    = Legacy.slideRunwayInPx
                        (Legacy.getDelta (Legacy.userAgent w) deltaY) w).
    { unfold Legacy.onWheel. now rewrite Hup, Hdown. }
    rewrite Hstep, IH by exact Hup || exact Hdown.
    unfold Legacy.slideRunwayInPx. cbn. f_equal.
    fold (wheelTotal (Legacy.userAgent w) deltaYs). lia.
Qed.

Lemma wheel_events_accumulate_witness :
  Legacy.run (Legacy.mount None "Mozilla/5.0 Firefox/60.0" 300 300)
    (Legacy.Wheel <$> [4; -2; 10])
  = Legacy.slideRunwayInPx (wheelTotal "Mozilla/5.0 Firefox/60.0" [4; -2; 10])
      (Legacy.mount None "Mozilla/5.0 Firefox/60.0" 300 300).
Proof.
  apply (wheel_events_accumulate
           (Legacy.mount None "Mozilla/5.0 Firefox/60.0" 300 300)
           [4; -2; 10]); reflexivity.
Defined.

Lemma legacy_step_automatic_frame (w : Legacy.World) (e : Legacy.Event) :
  legacyAutomatic e = true ->
  Legacy.debug (Legacy.settings (Legacy.state w)) = true ->
  Legacy.settings (Legacy.state (Legacy.step w e))
  = Legacy.settings (Legacy.state w)
  /\ Legacy.fetchLog (Legacy.step w e) = Legacy.fetchLog w.
Proof.
  intros Hauto Hdebug.
  destruct e as [target ratio|k [page|]|d|deltaY];
    try discriminate Hauto; cbn [Legacy.step].
  - unfold Legacy.handleIntersection. cbn. rewrite Hdebug.
    rewrite orb_true_r. cbn. auto.
  - destruct (Legacy.pending w !! k) as [call|]; [|auto].
    rewrite legacy_state_addPage_resume. cbn. split; [reflexivity|].
    unfold Legacy.addPage_resume, Legacy.slideRunwayToBuffer.
    destruct (callBefore call); reflexivity.
  - destruct (Legacy.pending w !! k); auto.
  - unfold Legacy.onWheel. destruct (_ || _); cbn; auto.
Qed.

(** X18: in debug mode the legacy variant never calls the host on its own:
    over any run of sentinel events, wheel events and settling promises the
    log of host calls stays as it was; only the manual actions add to it. *)
Theorem debug_mode_no_host_calls (w : Legacy.World)
    (events : list Legacy.Event) :
  Legacy.debug (Legacy.settings (Legacy.state w)) = true ->
  forallb legacyAutomatic events = true ->
  Legacy.fetchLog (Legacy.run w events) = Legacy.fetchLog w.
Proof.
  revert w. induction events as [|e events IH]; intros w Hdebug Hauto;
    [reflexivity|].
  cbn in Hauto. apply andb_true_iff in Hauto as [He Hevents].
  destruct (legacy_step_automatic_frame w e He Hdebug) as [Hsettings Hlog].
  unfold Legacy.run. cbn [foldl].
  fold (Legacy.run (Legacy.step w e) events).
  rewrite IH; [exact Hlog| |exact Hevents].
  now rewrite Hsettings.
Qed.

Lemma debug_mode_no_host_calls_witness :
  Legacy.fetchLog
    (Legacy.run
       (Legacy.mount (Some (Legacy.mkPartial None None (Some true)))
          "Mozilla/5.0 Firefox/60.0" 300 300)
       [Legacy.Intersection true 1; Legacy.Wheel 3;
        Legacy.Intersection false (1 # 2)])
  = [].
Proof.
  apply (debug_mode_no_host_calls
           (Legacy.mount (Some (Legacy.mkPartial None None (Some true)))
              "Mozilla/5.0 Firefox/60.0" 300 300)
           [Legacy.Intersection true 1; Legacy.Wheel 3;
            Legacy.Intersection false (1 # 2)]); reflexivity.
Defined.

(** X19: the prune test of the legacy [addPage] agrees with the eviction.
    For [maxPageBuffer >= 0], [pages[maxPageBuffer]] is defined exactly when
    the prepend drops a page of the old window. *)
Theorem prune_test_matches_eviction (page : IPageProps)
    (pages : list IPageProps) (maxPageBuffer : Z) :
  0 <= maxPageBuffer ->
  (Legacy.pageAt pages maxPageBuffer = None
   <-> mergePage true page pages maxPageBuffer = page :: pages).
Proof.
  intros Hmax. unfold Legacy.pageAt, mergePage, Lodash.take.
  replace (maxPageBuffer <? 0) with false by (symmetry; apply Z.ltb_ge; lia).
  rewrite lookup_ge_None. split.
  - intros Hlen. now rewrite take_ge.
  - intros Heq. injection Heq as Heq.
    apply (f_equal length) in Heq. rewrite length_take in Heq. lia.
Qed.

Lemma prune_test_matches_eviction_witness :
  Legacy.pageAt [pageA; pageB] 2 = None
  <-> mergePage true pageC [pageA; pageB] 2 = pageC :: [pageA; pageB].
Proof.
  apply (prune_test_matches_eviction pageC [pageA; pageB] 2). lia.
Defined.

(** A prepend that evicts, read on the window of the state. *)
Lemma legacy_prepend_evicting_window (w : Legacy.World)
    (page last : IPageProps)
    (front : list IPageProps) :
  Legacy.pages (Legacy.state w) = front ++ [last] ->
  Z.of_nat (length front)
  = Legacy.maxPageBuffer (Legacy.settings (Legacy.state w)) ->
  let w' := Legacy.addPage_resume true (Some page) w in
  Legacy.pages (Legacy.state w') = page :: front
  /\ Legacy.runwayY w'
     = Legacy.runwayY w - offsetHeight page + offsetHeight last.
Proof.
  intros Hpages Hlen. cbn zeta. split.
  - rewrite legacy_state_addPage_resume. cbn [Legacy.pages].
    rewrite Hpages.
    destruct (mergePage_evicts_far_end page (front ++ [last])
                (Legacy.maxPageBuffer (Legacy.settings (Legacy.state w))))
      as [_ H]; [rewrite length_app; cbn [length]; lia|].
    rewrite H. now rewrite removelast_last.
  - rewrite legacy_prepend_runwayY.
    unfold Legacy.prunedElementHeight, Legacy.pageAt,
      Legacy.beforeNextBufferPx, Lodash.last.
    rewrite Hpages, <- Hlen.
    replace (Z.of_nat (length front) <? 0) with false
      by (symmetry; apply Z.ltb_ge; lia).
    rewrite Nat2Z.id, list_lookup_middle by reflexivity.
    rewrite last_snoc. lia.
Qed.

(** A prepend that does not evict, read on the window of the state. *)
Lemma legacy_prepend_keeping_window (w : Legacy.World)
    (page : IPageProps) :
  Z.of_nat (length (Legacy.pages (Legacy.state w)))
  <= Legacy.maxPageBuffer (Legacy.settings (Legacy.state w)) ->
  let w' := Legacy.addPage_resume true (Some page) w in
  Legacy.pages (Legacy.state w') = page :: Legacy.pages (Legacy.state w)
  /\ Legacy.runwayY w' = Legacy.runwayY w - offsetHeight page.
Proof.
  intros Hlen. cbn zeta. split.
  - rewrite legacy_state_addPage_resume. cbn [Legacy.pages].
    now apply mergePage_keeps_all.
  - rewrite legacy_prepend_runwayY.
    unfold Legacy.prunedElementHeight, Legacy.pageAt.
    destruct (_ <? 0); [lia|].
    rewrite (proj2 (lookup_ge_None _ _)) by lia. lia.
Qed.

(** * The window along whole runs *)

(** X22: the exact size of the window.  After any sequence of merges from the
    empty window the window holds as many pages as were merged, up to
    [maxPageBuffer + 1] (a negative [maxPageBuffer] counting as 0). *)
Theorem window_length_after_merges (maxPageBuffer : Z)
    (merges : list (bool * IPageProps)) :
  length (mergeAll maxPageBuffer merges [])
  = Nat.min (length merges) (Z.to_nat maxPageBuffer + 1).
Proof. rewrite length_mergeAll by (cbn; lia). reflexivity. Qed.


(** X23: the bound along every run of either component.  A window holding at
    most [max(maxPageBuffer, 0) + 1] pages, the empty window at mount among
    them, stays within that bound whatever events follow (sentinel events,
    promises settling in any order, manual requests, toggles, wheel and
    scroll input); [maxPageBuffer] is the integer setting held in the
    component state, which no event changes. *)
Theorem window_bound_along_runs :
  (forall (w : Main.World) (events : list Main.Event),
     Z.of_nat (length (Main.pages (Main.state w)))
     <= Z.max 0 (Main.maxPageBuffer (Main.settings (Main.state w))) + 1 ->
     Z.of_nat (length (Main.pages (Main.state (Main.run w events))))
     <= Z.max 0 (Main.maxPageBuffer (Main.settings (Main.state w))) + 1
     /\ Main.maxPageBuffer (Main.settings (Main.state (Main.run w events)))
        = Main.maxPageBuffer (Main.settings (Main.state w)))
  /\ (forall (w : Legacy.World) (events : list Legacy.Event),
        Z.of_nat (length (Legacy.pages (Legacy.state w)))
        <= Z.max 0 (Legacy.maxPageBuffer (Legacy.settings (Legacy.state w)))
           + 1 ->
        Z.of_nat (length (Legacy.pages (Legacy.state (Legacy.run w events))))
        <= Z.max 0 (Legacy.maxPageBuffer (Legacy.settings (Legacy.state w)))
           + 1
        /\ Legacy.maxPageBuffer
             (Legacy.settings (Legacy.state (Legacy.run w events)))
           = Legacy.maxPageBuffer (Legacy.settings (Legacy.state w))).
Proof.
  split.
  - intros w events Hw. split.
    + pose proof (run_window_bound w events) as Hrun. lia.
    + clear Hw. revert w. induction events as [|e events IH]; intros w;
        [reflexivity|].
      unfold Main.run. cbn [foldl]. fold (Main.run (Main.step w e) events).
      destruct (step_window w e) as [Hmax _]. rewrite <- Hmax.
      apply IH.
  - intros w events Hw. split.
    + pose proof (legacy_run_window_bound w events) as Hrun. lia.
    + clear Hw. revert w. induction events as [|e events IH]; intros w;
        [reflexivity|].
      unfold Legacy.run. cbn [foldl].
      fold (Legacy.run (Legacy.step w e) events).
      destruct (legacy_step_window w e) as [Hmax _]. rewrite <- Hmax.
      apply IH.
Qed.

Lemma window_bound_along_runs_witness :
  (Z.of_nat
     (length
        (Main.pages
           (Main.state
              (Main.run
                 (Main.mount (Some (Main.mkPartial None (Some 1) None None))
                    600 600)
                 [Main.Intersection false 1; Main.Intersection false 1;
                  Main.Intersection false 1; Main.Settled 0 (Some pageA);
                  Main.Settled 0 (Some pageB); Main.Settled 0 (Some pageC)]))))
   <= Z.max 0 1 + 1)
  /\ (Z.of_nat
        (length
           (Legacy.pages
              (Legacy.state
                 (Legacy.run
                    (Legacy.mount
                       (Some (Legacy.mkPartial None (Some (-4)) None))
                       "Mozilla/5.0 Firefox/60.0" 300 300)
                    [Legacy.Intersection true 1; Legacy.Intersection true 1;
                     Legacy.Settled 0 (Some pageA);
                     Legacy.Settled 0 (Some pageB)]))))
      <= Z.max 0 (-4) + 1).
Proof.
  split.
  - apply (proj1 window_bound_along_runs
             (Main.mount (Some (Main.mkPartial None (Some 1) None None))
                600 600)
             [Main.Intersection false 1; Main.Intersection false 1;
              Main.Intersection false 1; Main.Settled 0 (Some pageA);
              Main.Settled 0 (Some pageB); Main.Settled 0 (Some pageC)]).
    cbn. lia.
  - apply (proj1 (proj2 window_bound_along_runs
                    (Legacy.mount
                       (Some (Legacy.mkPartial None (Some (-4)) None))
                       "Mozilla/5.0 Firefox/60.0" 300 300)
                    [Legacy.Intersection true 1; Legacy.Intersection true 1;
                     Legacy.Settled 0 (Some pageA);
                     Legacy.Settled 0 (Some pageB)]
                    ltac:(cbn; lia))).
Defined.

(** * Updates and animation frames in the main variant *)

Lemma frames_step_then_frame (w : Main.World) (e : Main.Event) :
  MainFrames.animationFrame
    (MainFrames.step (MainFrames.ofMain w) (MainFrames.Component e))
  = MainFrames.ofMain (Main.step w e).
Proof.
  destruct e as [target ratio|k [page|]|d|setting|top]; cbn [MainFrames.step];
    try reflexivity.
  - cbn [MainFrames.ofMain MainFrames.component Main.step].
    destruct (Main.pending w !! k); reflexivity.
  - cbn [MainFrames.ofMain MainFrames.component Main.step].
    destruct (Main.pending w !! k); reflexivity.
Qed.

(** X24: one frame per event.  When an animation frame runs after every
    event, before the next one, the component with its queue of frame
    callbacks goes through exactly the worlds of [Main.run]: each update's
    scroll adjustment is applied alone, from the snapshot of that update. *)
Theorem frame_after_each_event (w : Main.World) (events : list Main.Event) :
  MainFrames.run (MainFrames.ofMain w) (MainFrames.framed events)
  = MainFrames.ofMain (Main.run w events).
Proof.
  revert w. induction events as [|e events IH]; intros w; [reflexivity|].
  unfold MainFrames.framed. cbn [mbind list_bind app].
  fold (MainFrames.framed events).
  change (MainFrames.run
            (MainFrames.animationFrame
               (MainFrames.step (MainFrames.ofMain w)
                  (MainFrames.Component e)))
            (MainFrames.framed events)
          = MainFrames.ofMain (Main.run (Main.step w e) events)).
  rewrite frames_step_then_frame. apply IH.
Qed.

Lemma framesPrependEach_main (w : Main.World) (ps : list IPageProps) :
  framesPrependEach (MainFrames.ofMain w) ps
  = MainFrames.ofMain (mainPrependAll w ps).
Proof.
  revert w. induction ps as [|p ps IH]; intros w; [reflexivity|].
  rewrite mainPrependAll_cons, <- IH. reflexivity.
Qed.

(** X10: a streak of prepends in the main variant, an animation frame running
    after each merge.  When the results of consecutive [getPageBefore] calls
    are merged one after the other and each merge gets its frame before the
    next merge, the scroll offset grows by the heights of all the pages if the
    state already had [isScrollingUp] set, and by the heights of all but the
    first otherwise (the first merge of the streak is then not
    compensated). *)
Theorem prepend_streak_one_frame_each (w : Main.World)
    (ps : list IPageProps) :
  Main.scrollTop
    (MainFrames.component (framesPrependEach (MainFrames.ofMain w) ps))
  = Main.scrollTop w
    + (if Main.isScrollingUp (Main.state w) then totalHeight ps
       else totalHeight (tail ps)).
Proof.
  rewrite framesPrependEach_main. cbn [MainFrames.ofMain MainFrames.component].
  apply prepend_streak_compensation.
Qed.


(** X13: toggling a setting back and forth, an animation frame running after
    each toggle.  The two toggles restore the component state and make no
    host call; each of the two updates gets its scroll adjustment, so with
    [isScrollingUp] set the viewport ends up scrolled further by twice the
    height of the element after the leading buffer. *)
Theorem toggle_twice_one_frame_each (w : Main.World)
    (setting : Main.BoolSetting) :
  let fw :=
    MainFrames.run (MainFrames.ofMain w)
      (MainFrames.framed
         [Main.DebugToggle setting; Main.DebugToggle setting]) in
  Main.state (MainFrames.component fw) = Main.state w
  /\ Main.fetchLog (MainFrames.component fw) = Main.fetchLog w
  /\ Main.scrollTop (MainFrames.component fw)
     = Main.scrollTop w
       + (if Main.isScrollingUp (Main.state w)
          then 2 * Main.afterPreviousBufferPx w else 0).
Proof.
  cbn zeta. rewrite frame_after_each_event.
  cbn [MainFrames.ofMain MainFrames.component].
  destruct (toggle_twice w setting) as (Hstate & Hlog & _ & Hscroll).
  auto.
Qed.

(** X26: two toggles sharing an animation frame.  When the same setting is
    toggled twice before a frame runs, the state is restored and both frame
    callbacks start from the same snapshot: with [isScrollingUp] set the
    viewport ends up scrolled further by the height of the element after the
    leading buffer, once. *)
Theorem toggle_twice_one_frame (w : Main.World)
    (setting : Main.BoolSetting) :
  let fw :=
    MainFrames.run (MainFrames.ofMain w)
      [MainFrames.Component (Main.DebugToggle setting);
       MainFrames.Component (Main.DebugToggle setting);
       MainFrames.AnimationFrame] in
  Main.state (MainFrames.component fw) = Main.state w
  /\ Main.fetchLog (MainFrames.component fw) = Main.fetchLog w
  /\ Main.scrollTop (MainFrames.component fw)
     = Main.scrollTop w
       + (if Main.isScrollingUp (Main.state w)
          then Main.afterPreviousBufferPx w else 0).
Proof.
  unfold MainFrames.run. cbn [foldl MainFrames.step].
  unfold MainFrames.animationFrame, MainFrames.toggle, MainFrames.setState,
    MainFrames.ofMain, Main.adjustScrollTop, Main.afterPreviousBufferPx.
  destruct w as [[pages settings pbh nbh up] ry top nb pend log].
  destruct settings as [sbu mpb ipe dbg].
  destruct up; destruct setting; cbn; rewrite ?negb_involutive;
    repeat split; lia.
Qed.

(** Two prepends from offset 600 with [isScrollingUp] set, pages of heights
    100 and 120: the offset ends at 720 when they share a frame and at 820
    when each has its own. *)
Example two_prepends_sharing_a_frame :
  let w :=
    Main.withScrollTop 600
      (Main.run (Main.mount None 600 600)
         [Main.DebugAddPage true; Main.Settled 0 (Some pageC)]) in
  Main.scrollTop
    (MainFrames.component
       (framesPrependTogether (MainFrames.ofMain w) [pageA; pageB]))
  = 720
  /\ Main.scrollTop
       (MainFrames.component
          (framesPrependEach (MainFrames.ofMain w) [pageA; pageB]))
     = 820.
Proof. split; reflexivity. Qed.

(** * Legacy prepends on a runway rendered with distinct keys *)

Lemma legacyKeysDistinct_end (w : Legacy.World)
    (events : list Legacy.Event) :
  legacyKeysDistinct w events ->
  NoDup (pageIds (Legacy.pages (Legacy.state (Legacy.run w events)))).
Proof.
  revert w. induction events as [|e events IH]; intros w [Hw Hrest].
  - exact Hw.
  - unfold Legacy.run. cbn [foldl].
    fold (Legacy.run (Legacy.step w e) events). now apply IH.
Qed.

(** X20: a legacy prepend that evicts.  On a component whose windows since
    mount all had pairwise distinct page identifiers, when the window holds
    [maxPageBuffer + 1] pages and the new page's identifier is not in it, a
    prepend drops the last page, the runway moves by the height of that
    dropped page less the height of the new page, and the identifiers of the
    new window are again pairwise distinct. *)
Theorem legacy_prepend_with_eviction
    (propsSettings : option Legacy.PartialSettings) (agent : string)
    (previousPx nextPx : Z) (events : list Legacy.Event)
    (page last : IPageProps) (front : list IPageProps) :
  let w :=
    Legacy.run (Legacy.mount propsSettings agent previousPx nextPx) events in
  legacyKeysDistinct (Legacy.mount propsSettings agent previousPx nextPx)
    events ->
  id page ∉ pageIds (Legacy.pages (Legacy.state w)) ->
  Legacy.pages (Legacy.state w) = front ++ [last] ->
  Z.of_nat (length front)
  = Legacy.maxPageBuffer (Legacy.settings (Legacy.state w)) ->
  let w' := Legacy.addPage_resume true (Some page) w in
  Legacy.pages (Legacy.state w') = page :: front
  /\ Legacy.runwayY w'
     = Legacy.runwayY w - offsetHeight page + offsetHeight last
  /\ NoDup (pageIds (Legacy.pages (Legacy.state w'))).
Proof.
  intros w Hkeys Hfresh Hpages Hlen w'.
  destruct (legacy_prepend_evicting_window w page last front Hpages Hlen)
    as [Hwindow Hrunway].
  fold w' in Hwindow, Hrunway. repeat split; [exact Hwindow|exact Hrunway|].
  unfold w'. rewrite legacy_state_addPage_resume. cbn [Legacy.pages].
  apply NoDup_pageIds_mergePage; [|exact Hfresh].
  now apply legacyKeysDistinct_end.
Qed.

Lemma legacy_prepend_with_eviction_witness :
  let w :=
    Legacy.run
      (Legacy.mount (Some (Legacy.mkPartial None (Some 1) None))
         "Mozilla/5.0 Firefox/60.0" 300 300)
      [Legacy.DebugAddPage false; Legacy.Settled 0 (Some pageA);
       Legacy.DebugAddPage false; Legacy.Settled 0 (Some pageB)] in
  let w' := Legacy.addPage_resume true (Some pageC) w in
  Legacy.pages (Legacy.state w') = [pageC; pageA]
  /\ Legacy.runwayY w'
     = Legacy.runwayY w - offsetHeight pageC + offsetHeight pageB
  /\ NoDup (pageIds (Legacy.pages (Legacy.state w'))).
Proof.
  apply (legacy_prepend_with_eviction
           (Some (Legacy.mkPartial None (Some 1) None))
           "Mozilla/5.0 Firefox/60.0" 300 300
           [Legacy.DebugAddPage false; Legacy.Settled 0 (Some pageA);
            Legacy.DebugAddPage false; Legacy.Settled 0 (Some pageB)]
           pageC pageB [pageA]).
  - cbn. repeat split; apply (bool_decide_unpack _); vm_compute; exact I.
  - apply (bool_decide_unpack _). vm_compute. exact I.
  - reflexivity.
  - reflexivity.
Defined.

(** X21: a legacy prepend that does not evict.  On a component whose windows
    since mount all had pairwise distinct page identifiers, when the window
    holds at most [maxPageBuffer] pages and the new page's identifier is not
    in it, a prepend keeps all the pages, moves the runway up by exactly the
    height of the new page, and the identifiers of the new window are again
    pairwise distinct. *)
Theorem legacy_prepend_without_eviction
    (propsSettings : option Legacy.PartialSettings) (agent : string)
    (previousPx nextPx : Z) (events : list Legacy.Event)
    (page : IPageProps) :
  let w :=
    Legacy.run (Legacy.mount propsSettings agent previousPx nextPx) events in
  legacyKeysDistinct (Legacy.mount propsSettings agent previousPx nextPx)
    events ->
  id page ∉ pageIds (Legacy.pages (Legacy.state w)) ->
  Z.of_nat (length (Legacy.pages (Legacy.state w)))
  <= Legacy.maxPageBuffer (Legacy.settings (Legacy.state w)) ->
  let w' := Legacy.addPage_resume true (Some page) w in
  Legacy.pages (Legacy.state w') = page :: Legacy.pages (Legacy.state w)
  /\ Legacy.runwayY w' = Legacy.runwayY w - offsetHeight page
  /\ NoDup (pageIds (Legacy.pages (Legacy.state w'))).
Proof.
  intros w Hkeys Hfresh Hlen w'.
  destruct (legacy_prepend_keeping_window w page Hlen) as [Hwindow Hrunway].
  fold w' in Hwindow, Hrunway. repeat split; [exact Hwindow|exact Hrunway|].
  unfold w'. rewrite legacy_state_addPage_resume. cbn [Legacy.pages].
  apply NoDup_pageIds_mergePage; [|exact Hfresh].
  now apply legacyKeysDistinct_end.
Qed.

Lemma legacy_prepend_without_eviction_witness :
  let w :=
    Legacy.run (Legacy.mount None "Mozilla/5.0 Firefox/60.0" 300 300)
      [Legacy.Intersection true 1; Legacy.Settled 0 (Some pageA)] in
  let w' := Legacy.addPage_resume true (Some pageB) w in
  Legacy.pages (Legacy.state w') = pageB :: Legacy.pages (Legacy.state w)
  /\ Legacy.runwayY w' = Legacy.runwayY w - offsetHeight pageB
  /\ NoDup (pageIds (Legacy.pages (Legacy.state w'))).
Proof.
  apply (legacy_prepend_without_eviction None "Mozilla/5.0 Firefox/60.0"
           300 300
           [Legacy.Intersection true 1; Legacy.Settled 0 (Some pageA)]
           pageB).
  - cbn. repeat split; apply (bool_decide_unpack _); vm_compute; exact I.
  - apply (bool_decide_unpack _). vm_compute. exact I.
  - apply Z.leb_le. reflexivity.
Defined.
